(** * Movie-Recommender: the recommendation methods of [MovieRecommender]

    A shallow embedding of [src/movie_recommender.py].  The program is a
    client of a remote JSON API; every recommendation method fetches the
    detail record of a movie, picks a few fields, issues one further query
    and post-processes the [results] array of the answer.

    - Python values decoded from JSON are the type [json]; the dynamic
      operations the methods use on them (truth value, [in], subscript,
      [.get], iteration, [[:n]], [==], [!=], [-], [+], [max], [min]) are
      total functions into [result], with the exception Python raises.
    - The remote API is an oracle [remote : request -> response]; a method
      runs in a small monad that threads the list of requests issued so far
      and an exception.
    - [print] is the only other effect of the methods; it does not influence
      any returned value and is left out. *)

From Stdlib Require Import ZArith List String Ascii Bool Lia Floats.
Import ListNotations.

Set Warnings "-register-all,-inexact-float".

Local Open Scope string_scope.
Local Open Scope Z_scope.
Local Open Scope list_scope.

(** ** Python values and exceptions *)

(** What [response.json()] can produce.  A JSON number without fraction or
    exponent decodes to an [int], any other to a [float] (binary64).  A dict
    is its list of items in insertion order; lookup takes the first item with
    the key (a decoded dict has each key once). *)
Inductive json : Type :=
| JNull
| JBool (b : bool)
| JInt (n : Z)
| JFloat (f : float)
| JStr (s : string)
| JArr (xs : list json)
| JObj (kvs : list (string * json)).

(** The exceptions the methods can meet.  Only [RequestException] is named by
    an [except] clause of the source. *)
Inductive exn : Type :=
| RequestException
| KeyError
| TypeError
| AttributeError.

Inductive result (A : Type) : Type :=
| Ok (a : A)
| Raise (e : exn).
Arguments Ok {A} a.
Arguments Raise {A} e.

Definition rbind {A B} (r : result A) (k : A -> result B) : result B :=
  match r with
  | Ok a => k a
  | Raise e => Raise e
  end.

Declare Scope result_scope.
Delimit Scope result_scope with res.
Notation "x <- r ;; k" := (rbind r (fun x => k))
  (at level 61, r at next level, right associativity) : result_scope.

Module Py.

Local Open Scope result_scope.

Fixpoint assoc (k : string) (kvs : list (string * json)) : option json :=
  match kvs with
  | [] => None
  | (k', v) :: rest => if String.eqb k k' then Some v else assoc k rest
  end.

(** [bool(v)] *)
Definition truthy (v : json) : bool :=
  match v with
  | JNull => false
  | JBool b => b
  | JInt n => negb (n =? 0)
  | JFloat f => negb (PrimFloat.eqb f 0%float)
  | JStr s => negb (String.eqb s EmptyString)
  | JArr xs => match xs with [] => false | _ :: _ => true end
  | JObj kvs => match kvs with [] => false | _ :: _ => true end
  end.

(** [v == lit] for a string literal [lit] *)
Definition eq_str (v : json) (lit : string) : bool :=
  match v with
  | JStr s => String.eqb s lit
  | _ => false
  end.

Fixpoint is_substring (p s : string) : bool :=
  match s with
  | EmptyString => String.eqb p EmptyString
  | String _ s' => String.prefix p s || is_substring p s'
  end.

(** [k in v] for a string [k]: key of a dict, element of a list, substring of
    a string; anything else is not iterable. *)
Definition contains (k : string) (v : json) : result bool :=
  match v with
  | JObj kvs => Ok (match assoc k kvs with Some _ => true | None => false end)
  | JArr xs => Ok (existsb (fun x => eq_str x k) xs)
  | JStr s => Ok (is_substring k s)
  | _ => Raise TypeError
  end.

(** [v[k]] for a string [k] *)
Definition getitem (v : json) (k : string) : result json :=
  match v with
  | JObj kvs => match assoc k kvs with Some x => Ok x | None => Raise KeyError end
  | _ => Raise TypeError
  end.

(** [v.get(k, default)]: only a dict has the method. *)
Definition get (v : json) (k : string) (default : json) : result json :=
  match v with
  | JObj kvs => Ok (match assoc k kvs with Some x => x | None => default end)
  | _ => Raise AttributeError
  end.

(** The items a [for] loop or a comprehension visits: the elements of a
    list, the keys of a dict, the characters of a string (a [string] here is
    a sequence of one-byte characters). *)
Definition iter (v : json) : result (list json) :=
  match v with
  | JArr xs => Ok xs
  | JObj kvs => Ok (map (fun kv => JStr (fst kv)) kvs)
  | JStr s => Ok (map (fun c => JStr (String c EmptyString)) (list_ascii_of_string s))
  | _ => Raise TypeError
  end.

(** Number of items kept by [[:n]] on a sequence of length [len]. *)
Definition slice_stop (n : Z) (len : nat) : nat :=
  if n <? 0 then Z.to_nat (Z.max 0 (Z.of_nat len + n)) else Z.to_nat n.

(** [v[:n]]: a list or a string can be sliced; a dict rejects the slice as
    a key and the other values are not subscriptable. *)
Definition slice_to (v : json) (n : Z) : result json :=
  match v with
  | JArr xs => Ok (JArr (firstn (slice_stop n (List.length xs)) xs))
  | JStr s => Ok (JStr (String.substring 0 (slice_stop n (String.length s)) s))
  | _ => Raise TypeError
  end.

(** Exact comparison of a float with an int, as Python does it. *)
Definition float_eq_Z (f : float) (n : Z) : bool :=
  match Prim2SF f with
  | S754_zero _ => n =? 0
  | S754_infinity _ => false
  | S754_nan => false
  | S754_finite s m e =>
      let v := if s then Z.neg m else Z.pos m in
      if 0 <=? e then v * 2 ^ e =? n else n * 2 ^ (- e) =? v
  end.

(** [v != n] for an int [n]; [True] and [False] are the ints 1 and 0. *)
Definition ne_int (v : json) (n : Z) : bool :=
  match v with
  | JInt m => negb (m =? n)
  | JBool b => negb ((if b then 1 else 0) =? n)
  | JFloat f => negb (float_eq_Z f n)
  | _ => true
  end.

(** [[x['id'] for x in xs]] *)
Fixpoint ids_of (xs : list json) : result (list json) :=
  match xs with
  | [] => Ok []
  | x :: rest =>
      i <- getitem x "id" ;;
      others <- ids_of rest ;;
      Ok (i :: others)
  end.

(** [[movie for movie in ms if movie['id'] != movie_id]] *)
Fixpoint excluding (movie_id : Z) (ms : list json) : result (list json) :=
  match ms with
  | [] => Ok []
  | movie :: rest =>
      i <- getitem movie "id" ;;
      kept <- excluding movie_id rest ;;
      Ok (if ne_int i movie_id then movie :: kept else kept)
  end.

(** Results of arithmetic on a decoded number. *)
Inductive num : Type :=
| NInt (n : Z)
| NFloat (f : float).

(** [v - 1] and [v + 1] *)
Definition sub1 (v : json) : result num :=
  match v with
  | JInt n => Ok (NInt (n - 1))
  | JBool b => Ok (NInt ((if b then 1 else 0) - 1))
  | JFloat f => Ok (NFloat (PrimFloat.sub f 1%float))
  | _ => Raise TypeError
  end.

Definition add1 (v : json) : result num :=
  match v with
  | JInt n => Ok (NInt (n + 1))
  | JBool b => Ok (NInt ((if b then 1 else 0) + 1))
  | JFloat f => Ok (NFloat (PrimFloat.add f 1%float))
  | _ => Raise TypeError
  end.

(** [max(0, x)]: the first argument unless the second is greater. *)
Definition max0 (x : num) : num :=
  match x with
  | NInt n => if 0 <? n then x else NInt 0
  | NFloat f => if PrimFloat.ltb 0%float f then x else NInt 0
  end.

(** [min(10, x)]: the first argument unless the second is smaller. *)
Definition min10 (x : num) : num :=
  match x with
  | NInt n => if n <? 10 then x else NInt 10
  | NFloat f => if PrimFloat.ltb f 10%float then x else NInt 10
  end.

End Py.

(** ** Requests and the remote API *)

(** The three URLs the methods build from [base_url]:
    [/movie/{movie_id}], [/discover/movie], [/movie/{movie_id}/recommendations]. *)
Inductive endpoint : Type :=
| MovieDetail (movie_id : Z)
| Discover
| Recommendations (movie_id : Z).

(** A value of the [params] dict.  [PJoin ids] stands for
    [','.join(map(str, ids))], whose items are kept unrendered. *)
Inductive pvalue : Type :=
| PStr (s : string)
| PJoin (ids : list json)
| PVal (v : json)
| PNum (x : Py.num)
| PNone.

Record request : Type := mkRequest {
  endpoint_of : endpoint;
  params : list (string * pvalue)
}.

(** What happens to one [requests.get(url, params=params)] followed by
    [raise_for_status()] and [json()]: [get] raises ([Failed]),
    [raise_for_status] raises ([BadStatus]), [json] raises ([BadBody]), or
    the body decodes.  The first three raise a
    [requests.exceptions.RequestException] (the [JSONDecodeError] that
    [json] of requests raises derives from it, since requests 2.27). *)
Inductive response : Type :=
| Failed
| BadStatus
| BadBody
| Body (data : json).

Definition remote_api : Type := request -> response.

(** ** The methods *)

Section MovieRecommender.

Variable remote : remote_api.
Variable api_key : string.

(** A computation issues requests, recorded in order, and returns or raises. *)
Definition M (A : Type) : Type := list request -> result A * list request.

Definition ret {A} (a : A) : M A := fun tr => (Ok a, tr).

Definition bind {A B} (m : M A) (k : A -> M B) : M B :=
  fun tr =>
    match m tr with
    | (Ok a, tr') => k a tr'
    | (Raise e, tr') => (Raise e, tr')
    end.

Definition lift {A} (r : result A) : M A := fun tr => (r, tr).

(** [try: body  except requests.exceptions.RequestException: handler] *)
Definition try_except {A} (body handler : M A) : M A :=
  fun tr =>
    match body tr with
    | (Raise RequestException, tr') => handler tr'
    | other => other
    end.

(** [response = requests.get(...); response.raise_for_status();
     response.json()] *)
Definition fetch (req : request) : M json :=
  fun tr =>
    (match remote req with
     | Body data => Ok data
     | Failed | BadStatus | BadBody => Raise RequestException
     end, tr ++ [req]).

Declare Scope m_scope.
Delimit Scope m_scope with M.
Notation "x <- m ;; k" := (bind m (fun x => k))
  (at level 61, m at next level, right associativity) : m_scope.
Local Open Scope m_scope.

Definition detail_request (movie_id : Z) : request :=
  mkRequest (MovieDetail movie_id)
    [("api_key", PStr api_key);
     ("append_to_response", PStr "credits,keywords")].

Definition get_movie_details (movie_id : Z) : M json :=
  try_except (fetch (detail_request movie_id)) (ret JNull).

(** [not movie_details or key not in movie_details] *)
Definition lacks (key : string) (movie_details : json) : result bool :=
  if negb (Py.truthy movie_details) then Ok true
  else rbind (Py.contains key movie_details) (fun b => Ok (negb b)).

(** [data['results'][:limit]] *)
Definition results_upto (limit : Z) (data : json) : result json :=
  rbind (Py.getitem data "results") (fun results => Py.slice_to results limit).

(** [[movie for movie in data['results'] if movie['id'] != movie_id][:limit]] *)
Definition results_excluding (movie_id limit : Z) (data : json) : result json :=
  rbind (Py.getitem data "results") (fun results =>
  rbind (Py.iter results) (fun movies =>
  rbind (Py.excluding movie_id movies) (fun kept =>
  Py.slice_to (JArr kept) limit))).

(** The [try] block that ends every method: one query, the value computed
    from its answer, and [[]] on a [RequestException]. *)
Definition query (req : request) (k : json -> result json) : M json :=
  try_except (data <- fetch req ;; lift (k data)) (ret (JArr [])).

Definition discover (filters : list (string * pvalue)) : request :=
  mkRequest Discover
    (("api_key", PStr api_key) :: filters ++
     [("sort_by", PStr "popularity.desc"); ("language", PStr "en-US")]).

Definition get_recommendations_by_genre (movie_id limit : Z) : M json :=
  movie_details <- get_movie_details movie_id ;;
  missing <- lift (lacks "genres" movie_details) ;;
  if missing : bool then ret (JArr []) else
  genres <- lift (Py.getitem movie_details "genres") ;;
  items <- lift (Py.iter genres) ;;
  genre_ids <- lift (Py.ids_of items) ;;
  query (discover [("with_genres", PJoin genre_ids)]) (results_upto limit).

(** The [for ... break] loop that looks for the director. *)
Fixpoint find_director (crew : list json) : result (option json) :=
  match crew with
  | [] => Ok None
  | crew_member :: rest =>
      rbind (Py.getitem crew_member "job") (fun job =>
      if Py.eq_str job "Director" then Ok (Some crew_member)
      else find_director rest)
  end.

Definition get_recommendations_by_director (movie_id limit : Z) : M json :=
  movie_details <- get_movie_details movie_id ;;
  missing <- lift (lacks "credits" movie_details) ;;
  if missing : bool then ret (JArr []) else
  credits <- lift (Py.getitem movie_details "credits") ;;
  crew <- lift (Py.getitem credits "crew") ;;
  members <- lift (Py.iter crew) ;;
  director <- lift (find_director members) ;;
  match director with
  | None => ret (JArr [])
  | Some d =>
      if negb (Py.truthy d) then ret (JArr []) else
      director_id <- lift (Py.getitem d "id") ;;
      query (discover [("with_crew", PVal director_id)])
            (results_excluding movie_id limit)
  end.

Definition get_recommendations_by_cast (movie_id limit : Z) : M json :=
  movie_details <- get_movie_details movie_id ;;
  missing <- lift (lacks "credits" movie_details) ;;
  if missing : bool then ret (JArr []) else
  credits <- lift (Py.getitem movie_details "credits") ;;
  billed <- lift (Py.getitem credits "cast") ;;
  cast <- lift (Py.slice_to billed 3) ;;
  if negb (Py.truthy cast) then ret (JArr []) else
  actors <- lift (Py.iter cast) ;;
  cast_ids <- lift (Py.ids_of actors) ;;
  query (discover [("with_cast", PJoin cast_ids)])
        (results_excluding movie_id limit).

Definition get_recommendations_by_keywords (movie_id limit : Z) : M json :=
  movie_details <- get_movie_details movie_id ;;
  missing <- lift (lacks "keywords" movie_details) ;;
  if missing : bool then ret (JArr []) else
  section <- lift (Py.getitem movie_details "keywords") ;;
  keywords <- lift (Py.get section "keywords" (JArr [])) ;;
  if negb (Py.truthy keywords) then ret (JArr []) else
  top <- lift (Py.slice_to keywords 5) ;;
  kws <- lift (Py.iter top) ;;
  keyword_ids <- lift (Py.ids_of kws) ;;
  query (discover [("with_keywords", PJoin keyword_ids)])
        (results_excluding movie_id limit).

Definition get_recommendations_by_rating (movie_id limit : Z) : M json :=
  movie_details <- get_movie_details movie_id ;;
  if negb (Py.truthy movie_details) then ret (JArr []) else
  rating <- lift (Py.get movie_details "vote_average" (JInt 0)) ;;
  genres <- lift (Py.get movie_details "genres" (JArr [])) ;;
  items <- lift (Py.iter genres) ;;
  genre_ids <- lift (Py.ids_of items) ;;
  below <- lift (Py.sub1 rating) ;;
  above <- lift (Py.add1 rating) ;;
  query (discover [("vote_average.gte", PNum (Py.max0 below));
                   ("vote_average.lte", PNum (Py.min10 above));
                   ("with_genres",
                    match genre_ids with [] => PNone | _ :: _ => PJoin genre_ids end)])
        (results_excluding movie_id limit).

Definition recommendations_request (movie_id : Z) : request :=
  mkRequest (Recommendations movie_id)
    [("api_key", PStr api_key); ("language", PStr "en-US")].

Definition get_tmdb_recommendations (movie_id limit : Z) : M json :=
  query (recommendations_request movie_id) (results_upto limit).

(** The criteria of the menu of [main] (choices 1 to 6) and the method each
    one calls. *)
Inductive criterion : Type :=
| Genre | Director | Cast | Keywords | Rating | Combined.

Definition resolve (c : criterion) (movie_id limit : Z) : M json :=
  match c with
  | Genre => get_recommendations_by_genre movie_id limit
  | Director => get_recommendations_by_director movie_id limit
  | Cast => get_recommendations_by_cast movie_id limit
  | Keywords => get_recommendations_by_keywords movie_id limit
  | Rating => get_recommendations_by_rating movie_id limit
  | Combined => get_tmdb_recommendations movie_id limit
  end.

(** A call from a fresh trace: the outcome and the requests it issued. *)
Definition run {A} (m : M A) : result A * list request := m [].

End MovieRecommender.

(** ** Searching and displaying *)

(** [results[0] if results else None], the two branches of [search_movie]:
    nothing for a value Python finds false; otherwise the first element of a
    list, the first character of a string; a dict has no key [0] and a number
    or [True] cannot be subscripted. *)
Definition best_match (results : json) : result json :=
  match results with
  | JNull => Ok JNull
  | JBool b => if b then Raise TypeError else Ok JNull
  | JInt n => if n =? 0 then Ok JNull else Raise TypeError
  | JFloat f => if PrimFloat.eqb f 0%float then Ok JNull else Raise TypeError
  | JStr EmptyString => Ok JNull
  | JStr (String c _) => Ok (JStr (String c EmptyString))
  | JArr [] => Ok JNull
  | JArr (x :: _) => Ok x
  | JObj [] => Ok JNull
  | JObj (_ :: _) => Raise KeyError
  end.

(** The [params] of the GET to [/search/movie]. *)
Definition search_params (api_key title : string) : list (string * pvalue) :=
  [("api_key", PStr api_key); ("query", PStr title); ("language", PStr "en-US")].

(** [search_movie]: its one request goes to an endpoint of its own, so the
    oracle [search] answers the parameters. *)
Definition search_movie (search : list (string * pvalue) -> response)
    (api_key title : string) : result json :=
  match search (search_params api_key title) with
  | Body data =>
      match rbind (Py.getitem data "results") best_match with
      | Raise RequestException => Ok JNull
      | other => other
      end
  | Failed | BadStatus | BadBody => Ok JNull
  end.

(** A piece of a printed line: literal text of an f-string, [str(v)] of a
    value put in it, or [s.upper()]. *)
Inductive seg : Type :=
| Lit (s : string)
| Str (v : json)
| Upper (s : string).

(** One [print] call. *)
Definition line : Type := list seg.

Definition nl : string := String (Ascii.ascii_of_nat 10) EmptyString.

(** [s * n] *)
Fixpoint times (s : string) (n : nat) : string :=
  match n with
  | O => EmptyString
  | S n' => String.append s (times s n')
  end.

(** [movie.get('release_date', 'Unknown')[:4] if movie.get('release_date')
     else 'Unknown'] *)
Definition year_of (movie : json) : result json :=
  rbind (Py.get movie "release_date" JNull) (fun given =>
  if Py.truthy given
  then rbind (Py.get movie "release_date" (JStr "Unknown"))
             (fun date => Py.slice_to date 4)
  else Ok (JStr "Unknown")).

(** The body of the loop of [display_recommendations] for item [i]. *)
Definition entry_line (i : Z) (movie : json) : result line :=
  rbind (Py.get movie "title" (JStr "Unknown")) (fun title =>
  rbind (year_of movie) (fun year =>
  rbind (Py.get movie "vote_average" (JInt 0)) (fun rating =>
  Ok [Lit nl; Str (JInt i); Lit ". "; Str title; Lit " ("; Str year;
      Lit ") - Rating: "; Str rating; Lit "/10"]))).

(** [for i, movie in enumerate(movies, i): ...]: the lines printed and how
    the loop ended. *)
Fixpoint entry_lines (i : Z) (movies : list json) : list line * result unit :=
  match movies with
  | [] => ([], Ok tt)
  | movie :: rest =>
      match entry_line i movie with
      | Ok l => let (ls, ending) := entry_lines (i + 1) rest in (l :: ls, ending)
      | Raise e => ([], Raise e)
      end
  end.

Definition no_recommendations (criteria : string) : line :=
  [Lit (String.append nl "No recommendations found based on ");
   Str (JStr criteria); Lit "."].

Definition banner (criteria : string) : list line :=
  [[Lit (String.append nl nl); Str (JStr (times "#" 80))];
   [Lit "RECOMMENDATIONS BASED ON "; Upper criteria];
   [Str (JStr (times "#" 80))]].

(** [display_recommendations]: the lines printed, and whether it returned. *)
Definition display_recommendations (movies : json) (criteria : string)
  : list line * result unit :=
  if negb (Py.truthy movies) then ([no_recommendations criteria], Ok tt)
  else
    match Py.iter movies with
    | Ok items =>
        let (ls, ending) := entry_lines 1 items in (banner criteria ++ ls, ending)
    | Raise e => (banner criteria, Raise e)
    end.


(** ** Vocabulary of the statements *)

(** [len(v)] *)
Definition len (v : json) : result nat :=
  match v with
  | JArr xs => Ok (List.length xs)
  | JStr s => Ok (String.length s)
  | JObj kvs => Ok (List.length kvs)
  | _ => Raise TypeError
  end.

(** The entry carries an id, and Python finds it different from [movie_id]. *)
Definition other_than (movie_id : Z) (movie : json) : Prop :=
  exists i, Py.getitem movie "id" = Ok i /\ Py.ne_int i movie_id = true.

Definition has_id (movie : json) : Prop :=
  exists i, Py.getitem movie "id" = Ok i.

(** Decidable form of [other_than], to count entries. *)
Definition is_other (movie_id : Z) (movie : json) : bool :=
  match Py.getitem movie "id" with
  | Ok i => Py.ne_int i movie_id
  | Raise _ => false
  end.

(** The request did not produce a decoded body. *)
Definition failed (r : response) : Prop :=
  match r with
  | Body _ => False
  | Failed | BadStatus | BadBody => True
  end.

(** What [query req k] returns, by the answer to [req]. *)
Definition answered (k : json -> result json) (r : response) : result json :=
  match r with
  | Body data =>
      match k data with
      | Raise RequestException => Ok (JArr [])
      | other => other
      end
  | Failed | BadStatus | BadBody => Ok (JArr [])
  end.

(** The criteria whose method filters the source movie out of the answer. *)
Definition filtering (c : criterion) : bool :=
  match c with
  | Director | Cast | Keywords | Rating => true
  | Genre | Combined => false
  end.

(** The value a method computes from the answer to its last query. *)
Definition postprocess (c : criterion) (movie_id limit : Z) : json -> result json :=
  if filtering c then results_excluding movie_id limit else results_upto limit.

(** The three ways a call of a method that starts with the detail record can
    go, with the requests it adds to the trace. *)
Inductive course (remote : remote_api) (api_key : string) (movie_id : Z)
    (k : json -> result json) (tr : list request)
    (o : result json) (tr' : list request) : Prop :=
| NoDetail :
    failed (remote (detail_request api_key movie_id)) ->
    tr' = tr ++ [detail_request api_key movie_id] ->
    o = Ok (JArr []) ->
    course remote api_key movie_id k tr o tr'
| NoQuery (d : json) :
    remote (detail_request api_key movie_id) = Body d ->
    tr' = tr ++ [detail_request api_key movie_id] ->
    o = Ok (JArr []) \/ (exists e, o = Raise e /\ e <> RequestException) ->
    course remote api_key movie_id k tr o tr'
| Queried (d : json) (filters : list (string * pvalue)) :
    remote (detail_request api_key movie_id) = Body d ->
    tr' = tr ++ [detail_request api_key movie_id; discover api_key filters] ->
    o = answered k (remote (discover api_key filters)) ->
    course remote api_key movie_id k tr o tr'.

(** The top-level field of the detail record a method looks for before it
    goes on ([rating] and the native recommendations look for none). *)
Definition guarded_field (c : criterion) : option string :=
  match c with
  | Genre => Some "genres"
  | Director | Cast => Some "credits"
  | Keywords => Some "keywords"
  | Rating | Combined => None
  end.

(** The crew entry carries a job, and it is not "Director". *)
Definition not_director (crew_member : json) : Prop :=
  exists job, Py.getitem crew_member "job" = Ok job /\ job <> JStr "Director".

(** The ids of the entries, in their order. *)
Definition ids_are (entries ids : list json) : Prop :=
  Forall2 (fun entry i => Py.getitem entry "id" = Ok i) entries ids.

(** The filters of the rating method for a window and genre ids. *)
Definition rating_filters (lo hi : Py.num) (genre_ids : list json)
  : list (string * pvalue) :=
  [("vote_average.gte", PNum lo);
   ("vote_average.lte", PNum hi);
   ("with_genres",
    match genre_ids with [] => PNone | _ :: _ => PJoin genre_ids end)].

(** The value of a parameter of a request. *)
Fixpoint param (name : string) (ps : list (string * pvalue)) : option pvalue :=
  match ps with
  | [] => None
  | (n, v) :: rest => if String.eqb name n then Some v else param name rest
  end.

(** [xs] is [ys] with some items left out, the others in their order. *)
Inductive subseq {A : Type} : list A -> list A -> Prop :=
| subseq_nil : subseq [] []
| subseq_skip x xs ys : subseq xs ys -> subseq xs (x :: ys)
| subseq_keep x xs ys : subseq xs ys -> subseq (x :: xs) (x :: ys).

(** Two calls of a method that starts with the detail record, from the same
    trace: they end alike before any query, or both query the same filters
    and differ by what they compute from the answer. *)
Inductive agree (remote : remote_api) (api_key : string) (movie_id : Z)
    (ka kb : json -> result json) (tr : list request)
    (x y : result json * list request) : Prop :=
| Unqueried :
    x = y ->
    fst x = Ok (JArr []) \/ (exists e, fst x = Raise e) ->
    agree remote api_key movie_id ka kb tr x y
| BothQueried (filters : list (string * pvalue)) :
    x = (answered ka (remote (discover api_key filters)),
         tr ++ [detail_request api_key movie_id; discover api_key filters]) ->
    y = (answered kb (remote (discover api_key filters)),
         tr ++ [detail_request api_key movie_id; discover api_key filters]) ->
    agree remote api_key movie_id ka kb tr x y.

(** A value of [release_date] that [display_recommendations] can show: one
    Python finds false, a string or a list. *)
Definition showable_date (date : json) : Prop :=
  Py.truthy date = false \/ (exists s, date = JStr s) \/ (exists xs, date = JArr xs).

(** A dict whose [release_date], if any, can be shown. *)
Definition showable (movie : json) : Prop :=
  exists kvs,
    movie = JObj kvs /\
    forall date, Py.assoc "release_date" kvs = Some date -> showable_date date.

(** ** Sample data *)

Module Sample.

Definition key : string := "0123456789abcdef".

Definition inception_id : Z := 27205.

Definition named (id : Z) (name : string) : json :=
  JObj [("id", JInt id); ("name", JStr name)].

Definition crew_member (id : Z) (name job : string) : json :=
  JObj [("id", JInt id); ("job", JStr job); ("name", JStr name)].

Definition summary (id : Z) (title : string) : json :=
  JObj [("id", JInt id); ("title", JStr title)].

Definition genres : list json :=
  [named 28 "Action"; named 878 "Science Fiction"; named 12 "Adventure"].

Definition cast : list json :=
  [named 6193 "first billed"; named 24045 "second billed";
   named 3899 "third billed"; named 2524 "fourth billed";
   named 27578 "fifth billed"].

Definition crew : list json :=
  [crew_member 947 "composer" "Original Music Composer";
   crew_member 525 "director" "Director";
   crew_member 556 "producer" "Producer";
   crew_member 3000 "co-director" "Director"].

Definition keywords : list json :=
  [named 1014 "loss of loved one"; named 1566 "dream"; named 4565 "dystopia";
   named 5340 "subconscious"; named 9882 "space"; named 10051 "heist";
   named 14544 "robbery"].

(** A detail record with the given [vote_average], genres and keywords. *)
Definition detail (rating : json) (gs ks : list json) : json :=
  JObj [("id", JInt inception_id);
        ("title", JStr "Inception");
        ("vote_average", rating);
        ("genres", JArr gs);
        ("credits", JObj [("cast", JArr cast); ("crew", JArr crew)]);
        ("keywords", JObj [("keywords", JArr ks)])].

Definition inception : json := detail (JFloat 8.5%float) genres keywords.

Definition dark_knight : json := summary 155 "The Dark Knight".
Definition interstellar : json := summary 157336 "Interstellar".
Definition prestige : json := summary 1124 "The Prestige".
Definition itself : json := summary inception_id "Inception".

(** An answer of the catalogue that lists the source movie itself. *)
Definition listing : json :=
  JObj [("page", JInt 1);
        ("results", JArr [dark_knight; itself; interstellar; prestige])].

(** A remote that answers the detail request with [d] and every other
    request with [a]. *)
Definition serving (d a : response) : remote_api :=
  fun req =>
    match endpoint_of req with
    | MovieDetail _ => d
    | Discover | Recommendations _ => a
    end.

Definition api : remote_api := serving (Body inception) (Body listing).

(** The same movie with another [vote_average]. *)
Definition rated (rating : json) : remote_api :=
  serving (Body (detail rating genres keywords)) (Body listing).

(** The remote cannot be reached at all. *)
Definition offline : remote_api := serving Failed Failed.

(** The catalogue answers with an object that has no [results]. *)
Definition without_results : remote_api :=
  serving (Body inception) (Body (JObj [("page", JInt 1)])).

(** The detail record has [credits] but no [crew] in it. *)
Definition without_crew : remote_api :=
  serving (Body (JObj [("id", JInt inception_id);
                       ("credits", JObj [("cast", JArr cast)])]))
          (Body listing).

(** The detail record of a movie that has no genre: [genres] is [[]]. *)
Definition no_genre : remote_api :=
  serving (Body (detail (JFloat 8.5%float) [] keywords)) (Body listing).

(** A catalogue whose third entry has lost its id. *)
Definition damaged : remote_api :=
  serving (Body inception)
    (Body (JObj [("results",
                  JArr [dark_knight; interstellar;
                        JObj [("title", JStr "The Prestige")]])])).

(** The search endpoint: two matches for any title. *)
Definition found (ps : list (string * pvalue)) : response :=
  Body (JObj [("page", JInt 1); ("results", JArr [itself; prestige])]).

(** A movie as the search and the catalogue summarise it. *)
Definition released (id : Z) (title date : string) : json :=
  JObj [("id", JInt id); ("title", JStr title); ("release_date", JStr date);
        ("vote_average", JFloat 8.5%float)].

End Sample.

(** ** Basic facts *)

Section Facts.

Variable remote : remote_api.
Variable api_key : string.

Lemma getitem_not_request v k : Py.getitem v k <> Raise RequestException.
Proof.
  destruct v; simpl; try discriminate.
  destruct (Py.assoc k kvs); discriminate.
Qed.

Lemma contains_not_request k v : Py.contains k v <> Raise RequestException.
Proof. destruct v; simpl; discriminate. Qed.

Lemma get_not_request v k d : Py.get v k d <> Raise RequestException.
Proof. destruct v; simpl; discriminate. Qed.

Lemma iter_not_request v : Py.iter v <> Raise RequestException.
Proof. destruct v; simpl; discriminate. Qed.

Lemma slice_to_not_request v n : Py.slice_to v n <> Raise RequestException.
Proof. destruct v; simpl; discriminate. Qed.

Lemma sub1_not_request v : Py.sub1 v <> Raise RequestException.
Proof. destruct v; simpl; discriminate. Qed.

Lemma add1_not_request v : Py.add1 v <> Raise RequestException.
Proof. destruct v; simpl; discriminate. Qed.

Lemma ids_of_not_request xs : Py.ids_of xs <> Raise RequestException.
Proof.
  induction xs as [|x xs IH]; simpl; [discriminate|].
  destruct (Py.getitem x "id") eqn:E; simpl.
  - destruct (Py.ids_of xs); simpl; [discriminate|exact IH].
  - intros H; injection H as ->. exact (getitem_not_request _ _ E).
Qed.

Lemma find_director_not_request crew :
  find_director crew <> Raise RequestException.
Proof.
  induction crew as [|m crew IH]; simpl; [discriminate|].
  destruct (Py.getitem m "job") eqn:E; simpl.
  - destruct (Py.eq_str a "Director"); [discriminate|exact IH].
  - intros H; injection H as ->. exact (getitem_not_request _ _ E).
Qed.

Lemma lacks_not_request k v : lacks k v <> Raise RequestException.
Proof.
  unfold lacks. destruct (negb (Py.truthy v)); [discriminate|].
  destruct (Py.contains k v) eqn:E; simpl; [discriminate|].
  intros H; injection H as ->. exact (contains_not_request _ _ E).
Qed.

(** One query: the request is appended, the outcome is [answered]. *)
Lemma query_run req k tr :
  query remote req k tr = (answered k (remote req), tr ++ [req]).
Proof.
  unfold query, try_except, bind, fetch, lift, ret, answered.
  destruct (remote req); try reflexivity.
  destruct (k data) as [v|[]]; reflexivity.
Qed.

Lemma get_movie_details_run movie_id tr :
  get_movie_details remote api_key movie_id tr =
  (Ok match remote (detail_request api_key movie_id) with
      | Body d => d
      | Failed | BadStatus | BadBody => JNull
      end,
   tr ++ [detail_request api_key movie_id]).
Proof.
  unfold get_movie_details, try_except, fetch, ret.
  destruct (remote _); reflexivity.
Qed.

(** *** The course of a call

    Each method that starts with the detail record is walked branch by
    branch; every branch ends in one of the three constructors of [course]. *)

Ltac not_request :=
  match goal with
  | H : _ = Raise RequestException |- False =>
      first [ exact (getitem_not_request _ _ H)
            | exact (get_not_request _ _ _ H)
            | exact (iter_not_request _ H)
            | exact (slice_to_not_request _ _ H)
            | exact (sub1_not_request _ H)
            | exact (add1_not_request _ H)
            | exact (ids_of_not_request _ H)
            | exact (find_director_not_request _ H)
            | exact (lacks_not_request _ _ H) ]
  end.

Ltac finish_course Hd :=
  first
  [ eapply NoQuery; [exact Hd | reflexivity | left; reflexivity]
  | eapply NoQuery;
    [exact Hd | reflexivity
    | right; eexists; split; [reflexivity | intros ->; not_request]]
  | rewrite query_run; simpl; eapply Queried;
    [exact Hd | rewrite <- app_assoc; reflexivity | reflexivity] ].

Ltac walk Hd :=
  simpl;
  first
  [ finish_course Hd
  | match goal with
    | |- context [match ?x with _ => _ end] => destruct x eqn:?; walk Hd
    end ].

Ltac course_of method :=
  unfold method, bind;
  rewrite get_movie_details_run;
  match goal with
  | |- context [remote ?r] =>
      let Hd := fresh "Hd" in
      destruct (remote r) eqn:Hd;
      [ simpl; apply NoDetail; [rewrite Hd; exact I | reflexivity | reflexivity] ..
      | unfold lift, ret; walk Hd ]
  end.

Lemma genre_course movie_id limit tr :
  course remote api_key movie_id (results_upto limit) tr
    (fst (get_recommendations_by_genre remote api_key movie_id limit tr))
    (snd (get_recommendations_by_genre remote api_key movie_id limit tr)).
Proof. course_of get_recommendations_by_genre. Qed.

Lemma director_course movie_id limit tr :
  course remote api_key movie_id (results_excluding movie_id limit) tr
    (fst (get_recommendations_by_director remote api_key movie_id limit tr))
    (snd (get_recommendations_by_director remote api_key movie_id limit tr)).
Proof. course_of get_recommendations_by_director. Qed.

Lemma cast_course movie_id limit tr :
  course remote api_key movie_id (results_excluding movie_id limit) tr
    (fst (get_recommendations_by_cast remote api_key movie_id limit tr))
    (snd (get_recommendations_by_cast remote api_key movie_id limit tr)).
Proof. course_of get_recommendations_by_cast. Qed.

Lemma keywords_course movie_id limit tr :
  course remote api_key movie_id (results_excluding movie_id limit) tr
    (fst (get_recommendations_by_keywords remote api_key movie_id limit tr))
    (snd (get_recommendations_by_keywords remote api_key movie_id limit tr)).
Proof. course_of get_recommendations_by_keywords. Qed.

Lemma rating_course movie_id limit tr :
  course remote api_key movie_id (results_excluding movie_id limit) tr
    (fst (get_recommendations_by_rating remote api_key movie_id limit tr))
    (snd (get_recommendations_by_rating remote api_key movie_id limit tr)).
Proof. course_of get_recommendations_by_rating. Qed.

Lemma criterion_eq_Combined (c : criterion) : c = Combined \/ c <> Combined.
Proof. destruct c; (left; reflexivity) || (right; discriminate). Qed.

(** Every criterion but the native one follows a [course]. *)
Lemma resolve_course c movie_id limit tr :
  c <> Combined ->
  course remote api_key movie_id (postprocess c movie_id limit) tr
    (fst (resolve remote api_key c movie_id limit tr))
    (snd (resolve remote api_key c movie_id limit tr)).
Proof.
  destruct c; intros Hc; try congruence; unfold postprocess; simpl.
  - apply genre_course.
  - apply director_course.
  - apply cast_course.
  - apply keywords_course.
  - apply rating_course.
Qed.

Lemma combined_run movie_id limit tr :
  resolve remote api_key Combined movie_id limit tr =
  (answered (results_upto limit)
     (remote (recommendations_request api_key movie_id)),
   tr ++ [recommendations_request api_key movie_id]).
Proof. apply query_run. Qed.

(** *** The comprehensions *)

Lemma ids_of_Forall2 xs ids :
  Py.ids_of xs = Ok ids <-> ids_are xs ids.
Proof.
  unfold ids_are. revert ids. induction xs as [|x xs IH]; intros ids; simpl.
  - split.
    + intros H; injection H as <-; constructor.
    + intros H; inversion H; reflexivity.
  - split.
    + destruct (Py.getitem x "id") as [i|] eqn:Ei; simpl; [|discriminate].
      destruct (Py.ids_of xs) as [others|] eqn:Eo; simpl; [|discriminate].
      intros H; injection H as <-. constructor; [exact Ei|].
      apply IH; reflexivity.
    + intros H; inversion H as [|? i ? others Hi Ho]; subst.
      rewrite Hi; simpl. apply IH in Ho. rewrite Ho; reflexivity.
Qed.

Lemma excluding_filter movie_id ms :
  Forall has_id ms ->
  Py.excluding movie_id ms = Ok (filter (is_other movie_id) ms).
Proof.
  induction 1 as [|m ms [i Hi] _ IH]; simpl; [reflexivity|].
  unfold is_other. rewrite Hi, IH; simpl.
  destruct (Py.ne_int i movie_id); reflexivity.
Qed.

Lemma excluding_Ok movie_id ms kept :
  Py.excluding movie_id ms = Ok kept ->
  Forall has_id ms /\ kept = filter (is_other movie_id) ms.
Proof.
  revert kept. induction ms as [|m ms IH]; intros kept; simpl.
  - intros H; injection H as <-; split; [constructor|reflexivity].
  - destruct (Py.getitem m "id") as [i|] eqn:Ei; simpl; [|discriminate].
    destruct (Py.excluding movie_id ms) as [k|] eqn:Ek; simpl; [|discriminate].
    destruct (IH k eq_refl) as [Hall ->].
    intros H; injection H as <-. split.
    + constructor; [exists i; exact Ei|exact Hall].
    + assert (is_other movie_id m = Py.ne_int i movie_id) as Hm
        by (unfold is_other; rewrite Ei; reflexivity).
      simpl. rewrite Hm. reflexivity.
Qed.

Lemma is_other_true movie_id m :
  is_other movie_id m = true <-> other_than movie_id m.
Proof.
  unfold is_other, other_than. split.
  - destruct (Py.getitem m "id") as [i|]; [|discriminate].
    intros H; exists i; split; [reflexivity|exact H].
  - intros [i [-> H]]; exact H.
Qed.

Lemma filter_other_than movie_id ms :
  Forall (other_than movie_id) (filter (is_other movie_id) ms).
Proof.
  apply Forall_forall. intros m Hm.
  apply filter_In in Hm. apply is_other_true, Hm.
Qed.

Lemma Forall_firstn_keeps {A} (P : A -> Prop) n xs :
  Forall P xs -> Forall P (firstn n xs).
Proof.
  intros H. revert n.
  induction H as [|x xs Hx _ IH]; intros [|n]; simpl; constructor; auto.
Qed.

(** What the filtering [try] block can return. *)
Lemma results_excluding_Ok movie_id limit data v :
  results_excluding movie_id limit data = Ok v ->
  exists results movies,
    Py.getitem data "results" = Ok results /\
    Py.iter results = Ok movies /\
    Forall has_id movies /\
    v = JArr (firstn (Py.slice_stop limit
                        (List.length (filter (is_other movie_id) movies)))
                     (filter (is_other movie_id) movies)).
Proof.
  unfold results_excluding.
  destruct (Py.getitem data "results") as [results|] eqn:Hr; simpl; [|discriminate].
  destruct (Py.iter results) as [movies|] eqn:Hm; simpl; [|discriminate].
  destruct (Py.excluding movie_id movies) as [kept|] eqn:Hk; simpl; [|discriminate].
  apply excluding_Ok in Hk. destruct Hk as [Hall ->].
  intros H; injection H as <-.
  exists results, movies. repeat split; assumption.
Qed.

Lemma results_excluding_list movie_id limit data results :
  Py.getitem data "results" = Ok (JArr results) ->
  Forall has_id results ->
  results_excluding movie_id limit data =
  Ok (JArr (firstn (Py.slice_stop limit
                      (List.length (filter (is_other movie_id) results)))
                   (filter (is_other movie_id) results))).
Proof.
  intros Hr Hall. unfold results_excluding.
  rewrite Hr; simpl. rewrite (excluding_filter _ _ Hall); reflexivity.
Qed.

(** A value returned through [answered] is [[]] or a value of [k]. *)
Lemma answered_Ok k r v :
  answered k r = Ok v ->
  v = JArr [] \/ exists data, r = Body data /\ k data = Ok v.
Proof.
  unfold answered. destruct r as [| | |data]; try (intros H; injection H as <-; left; reflexivity).
  destruct (k data) as [w|e] eqn:Hk.
  - intros H; injection H as <-. right. exists data. split; [reflexivity|exact Hk].
  - destruct e; try discriminate. intros H; injection H as <-. left; reflexivity.
Qed.

(** A value returned after a [course] is [[]] or a value of [k]. *)
Lemma course_Ok movie_id k tr v tr' :
  course remote api_key movie_id k tr (Ok v) tr' ->
  v = JArr [] \/ exists data, k data = Ok v.
Proof.
  intros [_ _ H | d _ _ [H | [e [H _]]] | d filters _ _ H].
  - injection H as ->; left; reflexivity.
  - injection H as ->; left; reflexivity.
  - discriminate.
  - symmetry in H. apply answered_Ok in H.
    destruct H as [-> | [data [_ H]]]; [left; reflexivity|right; exists data; exact H].
Qed.

End Facts.

(** ** Self-exclusion *)

(** C1.  For director, cast, keywords and rating, whatever the remote
    answers, a returned value is a list none of whose entries has the id of
    the source movie: each entry carries an id that Python finds different
    from [movie_id], so none carries [movie_id] itself. *)
Theorem source_movie_excluded :
  forall remote api_key c movie_id limit v tr,
    c <> Genre -> c <> Combined ->
    run (resolve remote api_key c movie_id limit) = (Ok v, tr) ->
    exists movies,
      v = JArr movies /\
      Forall (other_than movie_id) movies /\
      forall movie, In movie movies ->
        Py.getitem movie "id" <> Ok (JInt movie_id).
Proof.
  intros remote api_key c movie_id limit v tr Hg Hc Hrun.
  assert (Hk : postprocess c movie_id limit = results_excluding movie_id limit)
    by (destruct c; try reflexivity; congruence).
  pose proof (resolve_course remote api_key c movie_id limit [] Hc) as Hcourse.
  unfold run in Hrun. rewrite Hrun, Hk in Hcourse. simpl in Hcourse.
  assert (Hall : exists movies, v = JArr movies /\ Forall (other_than movie_id) movies).
  { apply course_Ok in Hcourse. destruct Hcourse as [-> | [data Hdata]].
    - exists []. split; [reflexivity|constructor].
    - apply results_excluding_Ok in Hdata.
      destruct Hdata as [results [movies [_ [_ [_ ->]]]]].
      eexists. split; [reflexivity|].
      apply Forall_firstn_keeps, filter_other_than. }
  destruct Hall as [movies [-> Hall]].
  exists movies. repeat split; [exact Hall|].
  intros movie Hin Hid.
  destruct (proj1 (Forall_forall _ _) Hall movie Hin) as [i [Hi Hne]].
  rewrite Hid in Hi. injection Hi as <-.
  simpl in Hne. rewrite Z.eqb_refl in Hne. discriminate.
Qed.

(** The catalogue lists the source movie second; the director method drops it. *)
Lemma source_movie_excluded_witness :
  run (resolve Sample.api Sample.key Director Sample.inception_id 10) =
    (Ok (JArr [Sample.dark_knight; Sample.interstellar; Sample.prestige]),
     [detail_request Sample.key Sample.inception_id;
      discover Sample.key [("with_crew", PVal (JInt 525))]]) /\
  exists movies,
    JArr [Sample.dark_knight; Sample.interstellar; Sample.prestige] = JArr movies /\
    Forall (other_than Sample.inception_id) movies /\
    forall movie, In movie movies ->
      Py.getitem movie "id" <> Ok (JInt Sample.inception_id).
Proof.
  refine ((fun Hrun => conj Hrun
    (source_movie_excluded Sample.api Sample.key Director _ 10 _ _ _ _ Hrun))
    eq_refl); discriminate.
Defined.


(** ** The cap *)

Lemma slice_stop_nonneg n len : 0 <= n -> Py.slice_stop n len = Z.to_nat n.
Proof.
  intros Hn. unfold Py.slice_stop.
  destruct (Z.ltb_spec n 0); [lia|reflexivity].
Qed.

Lemma substring_length_le n s : (String.length (String.substring 0 n s) <= n)%nat.
Proof.
  revert s. induction n as [|n IH]; intros [|c s]; simpl; try lia.
  specialize (IH s). lia.
Qed.

(** [len(v[:limit]) <= limit] for a limit that is not negative. *)
Lemma slice_to_len v limit w :
  0 <= limit ->
  Py.slice_to v limit = Ok w ->
  exists n, len w = Ok n /\ Z.of_nat n <= limit.
Proof.
  intros Hl. destruct v; simpl; try discriminate; intros H; injection H as <-;
    rewrite (slice_stop_nonneg _ _ Hl); simpl; eexists; (split; [reflexivity|]).
  - pose proof (substring_length_le (Z.to_nat limit) s). lia.
  - rewrite length_firstn. lia.
Qed.

Lemma postprocess_len c movie_id limit data v :
  0 <= limit ->
  postprocess c movie_id limit data = Ok v ->
  exists n, len v = Ok n /\ Z.of_nat n <= limit.
Proof.
  intros Hl. unfold postprocess. destruct (filtering c).
  - unfold results_excluding.
    destruct (Py.getitem data "results") as [results|]; simpl; [|discriminate].
    destruct (Py.iter results) as [movies|]; simpl; [|discriminate].
    destruct (Py.excluding movie_id movies) as [kept|]; simpl; [|discriminate].
    apply (slice_to_len (JArr kept)), Hl.
  - unfold results_upto.
    destruct (Py.getitem data "results") as [results|]; simpl; [|discriminate].
    apply slice_to_len, Hl.
Qed.

(** C9, amended.  For every criterion and every limit that is not negative,
    a returned value has at most [limit] elements. *)
Theorem at_most_limit :
  forall remote api_key c movie_id limit v tr,
    0 <= limit ->
    run (resolve remote api_key c movie_id limit) = (Ok v, tr) ->
    exists n, len v = Ok n /\ Z.of_nat n <= limit.
Proof.
  intros remote api_key c movie_id limit v tr Hl Hrun.
  assert (Hv : v = JArr [] \/
               exists data, postprocess c movie_id limit data = Ok v).
  { destruct (criterion_eq_Combined c) as [-> | Hc].
    - unfold run in Hrun. rewrite combined_run in Hrun.
      injection Hrun as Hv _. apply answered_Ok in Hv.
      destruct Hv as [-> | [data [_ Hd]]]; [left; reflexivity|].
      right; exists data; exact Hd.
    - pose proof (resolve_course remote api_key c movie_id limit [] Hc) as H.
      unfold run in Hrun. rewrite Hrun in H.
      exact (course_Ok _ _ _ _ _ _ _ H). }
  destruct Hv as [-> | [data Hd]].
  - exists 0%nat. split; [reflexivity|exact Hl].
  - exact (postprocess_len _ _ _ _ _ Hl Hd).
Qed.

Lemma at_most_limit_witness :
  0 <= 2 /\
  run (resolve Sample.api Sample.key Genre Sample.inception_id 2) =
    (Ok (JArr [Sample.dark_knight; Sample.itself]),
     [detail_request Sample.key Sample.inception_id;
      discover Sample.key
        [("with_genres", PJoin [JInt 28; JInt 878; JInt 12])]]) /\
  exists n,
    len (JArr [Sample.dark_knight; Sample.itself]) = Ok n /\ Z.of_nat n <= 2.
Proof.
  refine ((fun Hl Hrun => conj Hl (conj Hrun
    (at_most_limit Sample.api Sample.key Genre _ 2 _ _ Hl Hrun)))
    _ eq_refl); lia.
Defined.

(** C9 as stated fails for a negative limit: [[:-1]] drops the last entry
    only, and three entries are more than -1. *)
Lemma negative_limit_not_a_cap :
  run (resolve Sample.api Sample.key Genre Sample.inception_id (-1)) =
    (Ok (JArr [Sample.dark_knight; Sample.itself; Sample.interstellar]),
     [detail_request Sample.key Sample.inception_id;
      discover Sample.key
        [("with_genres", PJoin [JInt 28; JInt 878; JInt 12])]]) /\
  len (JArr [Sample.dark_knight; Sample.itself; Sample.interstellar]) = Ok 3%nat /\
  ~ (Z.of_nat 3 <= -1).
Proof. repeat split. lia. Qed.

(** ** Filter first, truncate second *)

(** C10, amended.  For director, cast, keywords and rating and a limit that
    is not negative: when the discovery query was issued and answered with a
    list of entries that all carry an id, at least [limit] of them other than
    the source movie, the method returns exactly [limit] entries, the first
    [limit] of those other than the source movie. *)
Theorem exactly_limit :
  forall remote api_key c movie_id limit o tr req data results,
    c <> Genre -> c <> Combined ->
    0 <= limit ->
    run (resolve remote api_key c movie_id limit) = (o, tr) ->
    In req tr -> endpoint_of req = Discover ->
    remote req = Body data ->
    Py.getitem data "results" = Ok (JArr results) ->
    Forall has_id results ->
    limit <= Z.of_nat (List.length (filter (is_other movie_id) results)) ->
    exists movies,
      o = Ok (JArr movies) /\
      Z.of_nat (List.length movies) = limit /\
      movies = firstn (Z.to_nat limit) (filter (is_other movie_id) results).
Proof.
  intros remote api_key c movie_id limit o tr req data results
         Hg Hc Hl Hrun Hin Hep Hbody Hres Hall Hmany.
  assert (Hk : postprocess c movie_id limit = results_excluding movie_id limit)
    by (destruct c; try reflexivity; congruence).
  pose proof (resolve_course remote api_key c movie_id limit [] Hc) as Hcourse.
  unfold run in Hrun. rewrite Hrun, Hk in Hcourse. simpl in Hcourse.
  destruct Hcourse as [_ Htr _ | d _ Htr _ | d filters _ Htr Ho];
    subst tr; simpl in Hin.
  - destruct Hin as [<- | []]. discriminate Hep.
  - destruct Hin as [<- | []]. discriminate Hep.
  - destruct Hin as [<- | [<- | []]]; [discriminate Hep|].
    rewrite Hbody in Ho. simpl in Ho.
    rewrite (results_excluding_list _ limit _ _ Hres Hall) in Ho.
    rewrite (slice_stop_nonneg _ _ Hl) in Ho.
    eexists. split; [exact Ho|]. split; [|reflexivity].
    rewrite length_firstn. lia.
Qed.

Lemma exactly_limit_witness :
  0 <= 2 /\
  run (resolve Sample.api Sample.key Cast Sample.inception_id 2) =
    (Ok (JArr [Sample.dark_knight; Sample.interstellar]),
     [detail_request Sample.key Sample.inception_id;
      discover Sample.key
        [("with_cast", PJoin [JInt 6193; JInt 24045; JInt 3899])]]) /\
  exists movies,
    Ok (JArr [Sample.dark_knight; Sample.interstellar]) = Ok (JArr movies) /\
    Z.of_nat (List.length movies) = 2 /\
    movies = firstn (Z.to_nat 2)
               (filter (is_other Sample.inception_id)
                  [Sample.dark_knight; Sample.itself;
                   Sample.interstellar; Sample.prestige]).
Proof.
  refine ((fun Hl Hrun => conj Hl (conj Hrun
    (exactly_limit Sample.api Sample.key Cast _ 2 _ _
       (discover Sample.key
          [("with_cast", PJoin [JInt 6193; JInt 24045; JInt 3899])])
       Sample.listing
       [Sample.dark_knight; Sample.itself; Sample.interstellar; Sample.prestige]
       _ _ Hl Hrun _ eq_refl eq_refl eq_refl _ _)))
    _ eq_refl).
  - discriminate.
  - discriminate.
  - right; left; reflexivity.
  - repeat constructor; eexists; reflexivity.
  - vm_compute. discriminate.
  - lia.
Defined.

(** C10 as stated fails for a negative limit: the answer has at least -1
    entries other than the source movie, and the method returns two entries,
    not -1. *)
Lemma negative_limit_not_exact :
  run (resolve Sample.api Sample.key Cast Sample.inception_id (-1)) =
    (Ok (JArr [Sample.dark_knight; Sample.interstellar]),
     [detail_request Sample.key Sample.inception_id;
      discover Sample.key
        [("with_cast", PJoin [JInt 6193; JInt 24045; JInt 3899])]]) /\
  Sample.api (discover Sample.key
                [("with_cast", PJoin [JInt 6193; JInt 24045; JInt 3899])]) =
    Body Sample.listing /\
  Py.getitem Sample.listing "results" =
    Ok (JArr [Sample.dark_knight; Sample.itself;
              Sample.interstellar; Sample.prestige]) /\
  -1 <= Z.of_nat (List.length
                    (filter (is_other Sample.inception_id)
                       [Sample.dark_knight; Sample.itself;
                        Sample.interstellar; Sample.prestige])) /\
  Z.of_nat (List.length [Sample.dark_knight; Sample.interstellar]) <> -1.
Proof. repeat split; try reflexivity; vm_compute; discriminate. Qed.

(** ** Failures *)

Lemma answered_failed k r : failed r -> answered k r = Ok (JArr []).
Proof. destruct r; simpl; intros H; [reflexivity..|destruct H]. Qed.

Lemma lacks_missing field kvs :
  Py.assoc field kvs = None -> lacks field (JObj kvs) = Ok true.
Proof.
  intros H. unfold lacks. simpl. rewrite H.
  destruct kvs; reflexivity.
Qed.

(** A method that finds its field missing returns [[]] after the detail
    request. *)
Lemma missing_field_run remote api_key c movie_id limit field kvs :
  guarded_field c = Some field ->
  remote (detail_request api_key movie_id) = Body (JObj kvs) ->
  Py.assoc field kvs = None ->
  run (resolve remote api_key c movie_id limit) =
  (Ok (JArr []), [detail_request api_key movie_id]).
Proof.
  intros Hf Hd Hnone.
  destruct c; simpl in Hf; try discriminate; injection Hf as <-;
    unfold run, resolve,
      get_recommendations_by_genre, get_recommendations_by_director,
      get_recommendations_by_cast, get_recommendations_by_keywords, bind;
    rewrite get_movie_details_run, Hd; unfold lift;
    rewrite (lacks_missing _ _ Hnone); reflexivity.
Qed.

(** C8, amended.  For every criterion: if a request the method issued met a
    transport failure (no connection, an error status, a body that does not
    decode), the method returns [[]] and does not raise; so it does when the
    detail record lacks the top-level field the method looks for ([genres],
    [credits], [keywords]). *)
Theorem failure_yields_empty :
  forall remote api_key c movie_id limit o tr,
    run (resolve remote api_key c movie_id limit) = (o, tr) ->
    (forall req, In req tr -> failed (remote req) -> o = Ok (JArr [])) /\
    (forall field kvs,
        guarded_field c = Some field ->
        remote (detail_request api_key movie_id) = Body (JObj kvs) ->
        Py.assoc field kvs = None ->
        o = Ok (JArr []) /\ tr = [detail_request api_key movie_id]).
Proof.
  intros remote api_key c movie_id limit o tr Hrun. split.
  - intros req Hin Hfail.
    destruct (criterion_eq_Combined c) as [-> | Hc].
    + unfold run in Hrun. rewrite combined_run in Hrun.
      injection Hrun as <- <-. simpl in Hin. destruct Hin as [<- | []].
      apply answered_failed, Hfail.
    + pose proof (resolve_course remote api_key c movie_id limit [] Hc) as H.
      unfold run in Hrun. rewrite Hrun in H. simpl in H.
      destruct H as [_ _ Ho | d Hd Htr _ | d filters Hd Htr Ho].
      * exact Ho.
      * subst tr. simpl in Hin. destruct Hin as [<- | []].
        rewrite Hd in Hfail. destruct Hfail.
      * subst tr. simpl in Hin. destruct Hin as [<- | [<- | []]].
        -- rewrite Hd in Hfail. destruct Hfail.
        -- rewrite Ho. apply answered_failed, Hfail.
  - intros field kvs Hf Hd Hnone.
    rewrite (missing_field_run _ _ _ _ limit _ _ Hf Hd Hnone) in Hrun.
    injection Hrun as <- <-. split; reflexivity.
Qed.

Lemma failure_yields_empty_witness :
  run (resolve Sample.offline Sample.key Director Sample.inception_id 10) =
    (Ok (JArr []), [detail_request Sample.key Sample.inception_id]) /\
  (forall req,
      In req [detail_request Sample.key Sample.inception_id] ->
      failed (Sample.offline req) -> Ok (JArr []) = Ok (JArr [])) /\
  (forall field kvs,
      guarded_field Director = Some field ->
      Sample.offline (detail_request Sample.key Sample.inception_id) =
        Body (JObj kvs) ->
      Py.assoc field kvs = None ->
      Ok (JArr []) = Ok (JArr []) /\
      [detail_request Sample.key Sample.inception_id] =
        [detail_request Sample.key Sample.inception_id]).
Proof.
  refine ((fun Hrun => conj Hrun
    (failure_yields_empty Sample.offline Sample.key Director _ 10 _ _ Hrun))
    eq_refl).
Defined.

(** C8 as stated fails on a data-shape failure: an answer of the catalogue
    without a [results] array makes the genre method raise [KeyError], and so
    does a [credits] object without [crew] in the director method. *)
Lemma shape_failure_raises :
  run (resolve Sample.without_results Sample.key Genre Sample.inception_id 10) =
    (Raise KeyError,
     [detail_request Sample.key Sample.inception_id;
      discover Sample.key
        [("with_genres", PJoin [JInt 28; JInt 878; JInt 12])]]) /\
  run (resolve Sample.without_crew Sample.key Director Sample.inception_id 10) =
    (Raise KeyError, [detail_request Sample.key Sample.inception_id]).
Proof. split; reflexivity. Qed.

(** ** Where the source movie is kept *)

(** C2.  The genre method and the native recommendations return the answer
    of the remote as it is, up to the limit: with a catalogue that lists the
    source movie, both return an entry whose id is the source movie's. *)
Theorem genre_and_native_keep_source_movie :
  run (resolve Sample.api Sample.key Genre Sample.inception_id 10) =
    (Ok (JArr [Sample.dark_knight; Sample.itself;
               Sample.interstellar; Sample.prestige]),
     [detail_request Sample.key Sample.inception_id;
      discover Sample.key
        [("with_genres", PJoin [JInt 28; JInt 878; JInt 12])]]) /\
  run (resolve Sample.api Sample.key Combined Sample.inception_id 10) =
    (Ok (JArr [Sample.dark_knight; Sample.itself;
               Sample.interstellar; Sample.prestige]),
     [recommendations_request Sample.key Sample.inception_id]) /\
  In Sample.itself [Sample.dark_knight; Sample.itself;
                    Sample.interstellar; Sample.prestige] /\
  Py.getitem Sample.itself "id" = Ok (JInt Sample.inception_id) /\
  Py.ne_int (JInt Sample.inception_id) Sample.inception_id = false.
Proof. repeat split. right; left; reflexivity. Qed.

(** ** The filters *)

Lemma getitem_Ok_inv v k x :
  Py.getitem v k = Ok x -> exists kvs, v = JObj kvs /\ Py.assoc k kvs = Some x.
Proof.
  destruct v; simpl; try discriminate.
  destruct (Py.assoc k kvs) as [y|] eqn:E; [|discriminate].
  intros H; injection H as ->. exists kvs; split; [reflexivity|exact E].
Qed.

Lemma getitem_truthy v k x : Py.getitem v k = Ok x -> Py.truthy v = true.
Proof.
  intros H. apply getitem_Ok_inv in H. destruct H as [kvs [-> H]].
  destruct kvs; [discriminate|reflexivity].
Qed.

Lemma lacks_present v k x : Py.getitem v k = Ok x -> lacks k v = Ok false.
Proof.
  intros H. unfold lacks. rewrite (getitem_truthy _ _ _ H). simpl.
  apply getitem_Ok_inv in H. destruct H as [kvs [-> H]].
  simpl. rewrite H. reflexivity.
Qed.

(** With [genres] a list of entries that carry ids, the genre method asks the
    catalogue for all those ids, in their order, and returns the first
    [limit] entries of the answer. *)
Lemma genre_filter remote api_key movie_id limit d gs ids :
  remote (detail_request api_key movie_id) = Body d ->
  Py.getitem d "genres" = Ok (JArr gs) ->
  ids_are gs ids ->
  run (get_recommendations_by_genre remote api_key movie_id limit) =
  (answered (results_upto limit)
     (remote (discover api_key [("with_genres", PJoin ids)])),
   [detail_request api_key movie_id;
    discover api_key [("with_genres", PJoin ids)]]).
Proof.
  intros Hd Hg Hids.
  unfold run, get_recommendations_by_genre, bind.
  rewrite get_movie_details_run, Hd. unfold lift.
  rewrite (lacks_present _ _ _ Hg), Hg. simpl.
  rewrite (proj2 (ids_of_Forall2 _ _) Hids).
  rewrite query_run. reflexivity.
Qed.

(** Whatever list the catalogue answers with, the genre method returns its
    first items as they are, the source movie among them if it is there. *)
Lemma genre_unfiltered remote api_key movie_id limit d gs ids data results :
  remote (detail_request api_key movie_id) = Body d ->
  Py.getitem d "genres" = Ok (JArr gs) ->
  ids_are gs ids ->
  remote (discover api_key [("with_genres", PJoin ids)]) = Body data ->
  Py.getitem data "results" = Ok (JArr results) ->
  fst (run (get_recommendations_by_genre remote api_key movie_id limit)) =
  Ok (JArr (firstn (Py.slice_stop limit (List.length results)) results)).
Proof.
  intros Hd Hg Hids Hq Hr.
  rewrite (genre_filter _ _ _ limit _ _ _ Hd Hg Hids), Hq. simpl.
  unfold results_upto. rewrite Hr. reflexivity.
Qed.

(** C7.  A detail record whose [genres] is the empty list does not make the
    genre method return [[]]: it asks the catalogue with an empty genre
    filter and returns what the catalogue answers. *)
Theorem genre_with_empty_genres :
  Sample.no_genre (detail_request Sample.key Sample.inception_id) =
    Body (Sample.detail (JFloat 8.5%float) [] Sample.keywords) /\
  Py.getitem (Sample.detail (JFloat 8.5%float) [] Sample.keywords) "genres" =
    Ok (JArr []) /\
  run (get_recommendations_by_genre
         Sample.no_genre Sample.key Sample.inception_id 10) =
    (Ok (JArr [Sample.dark_knight; Sample.itself;
               Sample.interstellar; Sample.prestige]),
     [detail_request Sample.key Sample.inception_id;
      discover Sample.key [("with_genres", PJoin [])]]).
Proof. repeat split. Qed.

Lemma eq_str_true v lit : Py.eq_str v lit = true <-> v = JStr lit.
Proof.
  destruct v; simpl; try (split; [discriminate|intros H; discriminate H]).
  split.
  - intros H. apply String.eqb_eq in H. subst; reflexivity.
  - intros H; injection H as ->. apply String.eqb_refl.
Qed.

Lemma eq_str_false v lit : v <> JStr lit -> Py.eq_str v lit = false.
Proof.
  intros H. destruct (Py.eq_str v lit) eqn:E; [|reflexivity].
  apply eq_str_true in E. contradiction.
Qed.

(** The loop stops at the first entry whose job is "Director". *)
Lemma find_director_first before m after :
  Forall not_director before ->
  Py.getitem m "job" = Ok (JStr "Director") ->
  find_director (before ++ m :: after) = Ok (Some m).
Proof.
  intros Hb Hm. induction Hb as [|x before [job [Hj Hne]] _ IH]; simpl.
  - rewrite Hm; reflexivity.
  - rewrite Hj; simpl. rewrite (eq_str_false _ _ Hne). exact IH.
Qed.

Lemma find_director_none crew :
  Forall not_director crew -> find_director crew = Ok None.
Proof.
  induction 1 as [|x crew [job [Hj Hne]] _ IH]; simpl; [reflexivity|].
  rewrite Hj; simpl. rewrite (eq_str_false _ _ Hne). exact IH.
Qed.

(** C3.  With the crew list of the detail record: the director method asks
    the catalogue for the id of the first entry whose job is "Director"
    (every entry before it carrying another job); if no entry has that job
    it returns [[]] without asking. *)
Theorem director_filter :
  forall remote api_key movie_id limit d credits crew,
    remote (detail_request api_key movie_id) = Body d ->
    Py.getitem d "credits" = Ok credits ->
    Py.getitem credits "crew" = Ok (JArr crew) ->
    (forall before m after i,
        crew = before ++ m :: after ->
        Forall not_director before ->
        Py.getitem m "job" = Ok (JStr "Director") ->
        Py.getitem m "id" = Ok i ->
        run (get_recommendations_by_director remote api_key movie_id limit) =
        (answered (results_excluding movie_id limit)
           (remote (discover api_key [("with_crew", PVal i)])),
         [detail_request api_key movie_id;
          discover api_key [("with_crew", PVal i)]])) /\
    (Forall not_director crew ->
     run (get_recommendations_by_director remote api_key movie_id limit) =
     (Ok (JArr []), [detail_request api_key movie_id])).
Proof.
  intros remote api_key movie_id limit d credits crew Hd Hc Hcrew.
  assert (Hstart :
    run (get_recommendations_by_director remote api_key movie_id limit) =
    match find_director crew with
    | Ok (Some m) =>
        if negb (Py.truthy m)
        then (Ok (JArr []), [detail_request api_key movie_id])
        else match Py.getitem m "id" with
             | Ok i =>
                 query remote (discover api_key [("with_crew", PVal i)])
                   (results_excluding movie_id limit)
                   [detail_request api_key movie_id]
             | Raise e => (Raise e, [detail_request api_key movie_id])
             end
    | Ok None => (Ok (JArr []), [detail_request api_key movie_id])
    | Raise e => (Raise e, [detail_request api_key movie_id])
    end).
  { unfold run, get_recommendations_by_director, bind.
    rewrite get_movie_details_run, Hd. unfold lift.
    rewrite (lacks_present _ _ _ Hc), Hc, Hcrew. simpl.
    destruct (find_director crew) as [[m|]|]; try reflexivity.
    destruct (negb (Py.truthy m)); reflexivity. }
  split.
  - intros before m after i -> Hb Hjob Hid.
    rewrite Hstart, (find_director_first _ _ _ Hb Hjob).
    rewrite (getitem_truthy _ _ _ Hid), Hid. simpl.
    apply query_run.
  - intros Hnone. rewrite Hstart, (find_director_none _ Hnone). reflexivity.
Qed.

Lemma director_filter_witness :
  run (get_recommendations_by_director
         Sample.api Sample.key Sample.inception_id 10) =
  (answered (results_excluding Sample.inception_id 10)
     (Sample.api (discover Sample.key [("with_crew", PVal (JInt 525))])),
   [detail_request Sample.key Sample.inception_id;
    discover Sample.key [("with_crew", PVal (JInt 525))]]).
Proof.
  refine (proj1 (director_filter Sample.api Sample.key Sample.inception_id 10
                   Sample.inception
                   (JObj [("cast", JArr Sample.cast); ("crew", JArr Sample.crew)])
                   Sample.crew eq_refl eq_refl eq_refl)
            [Sample.crew_member 947 "composer" "Original Music Composer"]
            (Sample.crew_member 525 "director" "Director")
            [Sample.crew_member 556 "producer" "Producer";
             Sample.crew_member 3000 "co-director" "Director"]
            (JInt 525) eq_refl _ eq_refl eq_refl).
  repeat constructor. eexists; split; [reflexivity|discriminate].
Defined.

(** [xs[:n]] of a list, for [n >= 0], is its first [n] items. *)
Lemma slice_to_list xs n :
  0 <= n -> Py.slice_to (JArr xs) n = Ok (JArr (firstn (Z.to_nat n) xs)).
Proof. intros Hn. simpl. rewrite (slice_stop_nonneg _ _ Hn). reflexivity. Qed.

Lemma firstn_S_truthy (n : nat) xs :
  xs <> [] -> Py.truthy (JArr (firstn (S n) xs)) = true.
Proof. destruct xs; [congruence|reflexivity]. Qed.

(** C5.  With the cast list of the detail record: the cast method asks the
    catalogue for the ids of the first three entries and no other (of five
    entries, the first three); if the list is empty it returns [[]] without
    asking. *)
Theorem cast_filter :
  forall remote api_key movie_id limit d credits cast,
    remote (detail_request api_key movie_id) = Body d ->
    Py.getitem d "credits" = Ok credits ->
    Py.getitem credits "cast" = Ok (JArr cast) ->
    (cast = [] ->
     run (get_recommendations_by_cast remote api_key movie_id limit) =
     (Ok (JArr []), [detail_request api_key movie_id])) /\
    (forall ids,
        cast <> [] ->
        ids_are (firstn 3 cast) ids ->
        run (get_recommendations_by_cast remote api_key movie_id limit) =
        (answered (results_excluding movie_id limit)
           (remote (discover api_key [("with_cast", PJoin ids)])),
         [detail_request api_key movie_id;
          discover api_key [("with_cast", PJoin ids)]])) /\
    (forall a1 a2 a3 a4 a5 i1 i2 i3,
        cast = [a1; a2; a3; a4; a5] ->
        Py.getitem a1 "id" = Ok i1 ->
        Py.getitem a2 "id" = Ok i2 ->
        Py.getitem a3 "id" = Ok i3 ->
        snd (run (get_recommendations_by_cast remote api_key movie_id limit)) =
        [detail_request api_key movie_id;
         discover api_key [("with_cast", PJoin [i1; i2; i3])]]).
Proof.
  intros remote api_key movie_id limit d credits cast Hd Hc Hcast.
  assert (Hstart :
    run (get_recommendations_by_cast remote api_key movie_id limit) =
    if negb (Py.truthy (JArr (firstn 3 cast)))
    then (Ok (JArr []), [detail_request api_key movie_id])
    else match Py.ids_of (firstn 3 cast) with
         | Ok ids =>
             query remote (discover api_key [("with_cast", PJoin ids)])
               (results_excluding movie_id limit)
               [detail_request api_key movie_id]
         | Raise e => (Raise e, [detail_request api_key movie_id])
         end).
  { unfold run, get_recommendations_by_cast, bind.
    rewrite get_movie_details_run, Hd. unfold lift.
    rewrite (lacks_present _ _ _ Hc), Hc, Hcast.
    rewrite slice_to_list by lia.
    change (Z.to_nat 3) with 3%nat.
    generalize (firstn 3 cast) as top; intros top.
    destruct (negb (Py.truthy (JArr top))); [reflexivity|].
    simpl. destruct (Py.ids_of top); reflexivity. }
  assert (Hsome : forall ids,
    cast <> [] -> ids_are (firstn 3 cast) ids ->
    run (get_recommendations_by_cast remote api_key movie_id limit) =
    (answered (results_excluding movie_id limit)
       (remote (discover api_key [("with_cast", PJoin ids)])),
     [detail_request api_key movie_id;
      discover api_key [("with_cast", PJoin ids)]])).
  { intros ids Hne Hids. rewrite Hstart.
    rewrite (firstn_S_truthy 2 _ Hne). simpl negb. cbv iota.
    rewrite (proj2 (ids_of_Forall2 _ _) Hids). apply query_run. }
  split; [|split].
  - intros ->. rewrite Hstart. reflexivity.
  - exact Hsome.
  - intros a1 a2 a3 a4 a5 i1 i2 i3 -> H1 H2 H3.
    rewrite (Hsome [i1; i2; i3]); [reflexivity|discriminate|].
    repeat constructor; assumption.
Qed.

Lemma cast_filter_witness :
  snd (run (get_recommendations_by_cast
              Sample.api Sample.key Sample.inception_id 10)) =
  [detail_request Sample.key Sample.inception_id;
   discover Sample.key
     [("with_cast", PJoin [JInt 6193; JInt 24045; JInt 3899])]].
Proof.
  refine (proj2 (proj2
            (cast_filter Sample.api Sample.key Sample.inception_id 10
               Sample.inception
               (JObj [("cast", JArr Sample.cast); ("crew", JArr Sample.crew)])
               Sample.cast eq_refl eq_refl eq_refl))
            (Sample.named 6193 "first billed")
            (Sample.named 24045 "second billed")
            (Sample.named 3899 "third billed")
            (Sample.named 2524 "fourth billed")
            (Sample.named 27578 "fifth billed")
            (JInt 6193) (JInt 24045) (JInt 3899)
            eq_refl eq_refl eq_refl eq_refl).
Defined.

(** C6.  With the keyword list of the detail record ([[]] when the
    [keywords] object has none): the keywords method asks the catalogue for
    the ids of the first five entries, in their order; if the list is empty
    it returns [[]] without asking. *)
Theorem keywords_filter :
  forall remote api_key movie_id limit d section keywords,
    remote (detail_request api_key movie_id) = Body d ->
    Py.getitem d "keywords" = Ok section ->
    Py.get section "keywords" (JArr []) = Ok (JArr keywords) ->
    (keywords = [] ->
     run (get_recommendations_by_keywords remote api_key movie_id limit) =
     (Ok (JArr []), [detail_request api_key movie_id])) /\
    (forall ids,
        keywords <> [] ->
        ids_are (firstn 5 keywords) ids ->
        run (get_recommendations_by_keywords remote api_key movie_id limit) =
        (answered (results_excluding movie_id limit)
           (remote (discover api_key [("with_keywords", PJoin ids)])),
         [detail_request api_key movie_id;
          discover api_key [("with_keywords", PJoin ids)]])).
Proof.
  intros remote api_key movie_id limit d section keywords Hd Hs Hk.
  assert (Hstart :
    run (get_recommendations_by_keywords remote api_key movie_id limit) =
    if negb (Py.truthy (JArr keywords))
    then (Ok (JArr []), [detail_request api_key movie_id])
    else match Py.ids_of (firstn 5 keywords) with
         | Ok ids =>
             query remote (discover api_key [("with_keywords", PJoin ids)])
               (results_excluding movie_id limit)
               [detail_request api_key movie_id]
         | Raise e => (Raise e, [detail_request api_key movie_id])
         end).
  { unfold run, get_recommendations_by_keywords, bind.
    rewrite get_movie_details_run, Hd. unfold lift.
    rewrite (lacks_present _ _ _ Hs), Hs, Hk.
    destruct (negb (Py.truthy (JArr keywords))); [reflexivity|].
    rewrite slice_to_list by lia.
    change (Z.to_nat 5) with 5%nat.
    generalize (firstn 5 keywords) as top; intros top.
    simpl. destruct (Py.ids_of top); reflexivity. }
  split.
  - intros ->. rewrite Hstart. reflexivity.
  - intros ids Hne Hids. rewrite Hstart.
    destruct keywords as [|kw rest]; [congruence|]. simpl negb. cbv iota.
    rewrite (proj2 (ids_of_Forall2 _ _) Hids). apply query_run.
Qed.

Lemma keywords_filter_witness :
  run (get_recommendations_by_keywords
         Sample.api Sample.key Sample.inception_id 10) =
  (answered (results_excluding Sample.inception_id 10)
     (Sample.api
        (discover Sample.key
           [("with_keywords",
             PJoin [JInt 1014; JInt 1566; JInt 4565; JInt 5340; JInt 9882])])),
   [detail_request Sample.key Sample.inception_id;
    discover Sample.key
      [("with_keywords",
        PJoin [JInt 1014; JInt 1566; JInt 4565; JInt 5340; JInt 9882])]]).
Proof.
  refine (proj2
            (keywords_filter Sample.api Sample.key Sample.inception_id 10
               Sample.inception
               (JObj [("keywords", JArr Sample.keywords)])
               Sample.keywords eq_refl eq_refl eq_refl)
            [JInt 1014; JInt 1566; JInt 4565; JInt 5340; JInt 9882] _ _).
  - discriminate.
  - repeat constructor.
Defined.

(** ** The rating window *)

(** The rating method, once the rating is a number and the genre ids are
    read. *)
Lemma rating_run remote api_key movie_id limit kvs gs gids rating below above :
  remote (detail_request api_key movie_id) = Body (JObj kvs) ->
  kvs <> [] ->
  Py.get (JObj kvs) "genres" (JArr []) = Ok (JArr gs) ->
  ids_are gs gids ->
  Py.get (JObj kvs) "vote_average" (JInt 0) = Ok rating ->
  Py.sub1 rating = Ok below ->
  Py.add1 rating = Ok above ->
  run (get_recommendations_by_rating remote api_key movie_id limit) =
  (answered (results_excluding movie_id limit)
     (remote (discover api_key
                (rating_filters (Py.max0 below) (Py.min10 above) gids))),
   [detail_request api_key movie_id;
    discover api_key (rating_filters (Py.max0 below) (Py.min10 above) gids)]).
Proof.
  intros Hd Hne Hg Hids Hr Hb Ha.
  unfold run, get_recommendations_by_rating, bind.
  rewrite get_movie_details_run, Hd. unfold lift.
  assert (Ht : Py.truthy (JObj kvs) = true) by (destruct kvs; [congruence|reflexivity]).
  rewrite Ht, Hr, Hg. simpl.
  rewrite (proj2 (ids_of_Forall2 _ _) Hids), Hb, Ha.
  rewrite query_run. reflexivity.
Qed.

(** C4.  With a detail record whose [vote_average] is a number or is
    missing (then 0): the rating method asks the catalogue for the window
    from [rating - 1], not below 0, to [rating + 1], not above 10.  For 9.5
    that is 8.5 to 10, for 0.3 it is 0 to 1.3, for a missing rating 0 to 1. *)
Theorem rating_window :
  forall remote api_key movie_id limit kvs gs gids rating,
    remote (detail_request api_key movie_id) = Body (JObj kvs) ->
    kvs <> [] ->
    Py.get (JObj kvs) "genres" (JArr []) = Ok (JArr gs) ->
    ids_are gs gids ->
    Py.get (JObj kvs) "vote_average" (JInt 0) = Ok rating ->
    let asks lo hi :=
      snd (run (get_recommendations_by_rating remote api_key movie_id limit)) =
      [detail_request api_key movie_id;
       discover api_key (rating_filters lo hi gids)] in
    (forall n, rating = JInt n ->
       asks (Py.NInt (Z.max 0 (n - 1))) (Py.NInt (Z.min 10 (n + 1)))) /\
    (forall f, rating = JFloat f ->
       asks (if PrimFloat.ltb 0%float (PrimFloat.sub f 1%float)
             then Py.NFloat (PrimFloat.sub f 1%float) else Py.NInt 0)
            (if PrimFloat.ltb (PrimFloat.add f 1%float) 10%float
             then Py.NFloat (PrimFloat.add f 1%float) else Py.NInt 10)) /\
    (rating = JFloat 9.5%float ->
       asks (Py.NFloat 8.5%float) (Py.NInt 10)) /\
    (rating = JFloat 0.3%float ->
       asks (Py.NInt 0) (Py.NFloat 1.3%float)) /\
    (Py.assoc "vote_average" kvs = None ->
       asks (Py.NInt 0) (Py.NInt 1)).
Proof.
  intros remote api_key movie_id limit kvs gs gids rating Hd Hne Hg Hids Hr asks.
  assert (Hint : forall n, rating = JInt n ->
            asks (Py.NInt (Z.max 0 (n - 1))) (Py.NInt (Z.min 10 (n + 1)))).
  { intros n ->. unfold asks.
    rewrite (rating_run _ _ _ limit _ _ _ _ _ _ Hd Hne Hg Hids Hr eq_refl eq_refl).
    simpl snd. unfold Py.max0, Py.min10.
    destruct (Z.ltb_spec 0 (n - 1)); destruct (Z.ltb_spec (n + 1) 10);
      try (exfalso; lia);
      rewrite ?Z.max_r, ?Z.max_l, ?Z.min_l, ?Z.min_r by lia; reflexivity. }
  assert (Hfloat : forall f, rating = JFloat f ->
            asks (if PrimFloat.ltb 0%float (PrimFloat.sub f 1%float)
                  then Py.NFloat (PrimFloat.sub f 1%float) else Py.NInt 0)
                 (if PrimFloat.ltb (PrimFloat.add f 1%float) 10%float
                  then Py.NFloat (PrimFloat.add f 1%float) else Py.NInt 10)).
  { intros f ->. unfold asks.
    rewrite (rating_run _ _ _ limit _ _ _ _ _ _ Hd Hne Hg Hids Hr eq_refl eq_refl).
    reflexivity. }
  repeat split.
  - exact Hint.
  - exact Hfloat.
  - intros H. exact (Hfloat _ H).
  - intros H. exact (Hfloat _ H).
  - intros Hnone. apply (Hint 0).
    simpl in Hr. rewrite Hnone in Hr. injection Hr as <-. reflexivity.
Qed.

Lemma rating_window_witness :
  snd (run (get_recommendations_by_rating
              (Sample.rated (JFloat 9.5%float)) Sample.key
              Sample.inception_id 10)) =
  [detail_request Sample.key Sample.inception_id;
   discover Sample.key
     (rating_filters (Py.NFloat 8.5%float) (Py.NInt 10)
        [JInt 28; JInt 878; JInt 12])].
Proof.
  refine (proj1 (proj2 (proj2
    (rating_window (Sample.rated (JFloat 9.5%float)) Sample.key
       Sample.inception_id 10
       [("id", JInt Sample.inception_id);
        ("title", JStr "Inception");
        ("vote_average", JFloat 9.5%float);
        ("genres", JArr Sample.genres);
        ("credits", JObj [("cast", JArr Sample.cast);
                          ("crew", JArr Sample.crew)]);
        ("keywords", JObj [("keywords", JArr Sample.keywords)])]
       Sample.genres [JInt 28; JInt 878; JInt 12] (JFloat 9.5%float)
       eq_refl _ eq_refl _ eq_refl))) eq_refl).
  - discriminate.
  - repeat constructor.
Defined.

(** ** What every call keeps to *)

Lemma answered_not_request k r : answered k r <> Raise RequestException.
Proof.
  unfold answered. destruct r; try discriminate.
  destruct (k data) as [v|[]]; discriminate.
Qed.

(** The trace of a call from the empty trace. *)
Lemma resolve_trace remote api_key c movie_id limit :
  match c with
  | Combined =>
      snd (run (resolve remote api_key c movie_id limit)) =
      [recommendations_request api_key movie_id]
  | _ =>
      snd (run (resolve remote api_key c movie_id limit)) =
        [detail_request api_key movie_id] \/
      exists d filters,
        remote (detail_request api_key movie_id) = Body d /\
        snd (run (resolve remote api_key c movie_id limit)) =
        [detail_request api_key movie_id; discover api_key filters]
  end.
Proof.
  assert (H : c <> Combined ->
    snd (run (resolve remote api_key c movie_id limit)) =
      [detail_request api_key movie_id] \/
    exists d filters,
      remote (detail_request api_key movie_id) = Body d /\
      snd (run (resolve remote api_key c movie_id limit)) =
      [detail_request api_key movie_id; discover api_key filters]).
  { intros Hc. unfold run.
    destruct (resolve_course remote api_key c movie_id limit [] Hc)
      as [_ Htr _ | d _ Htr _ | d filters Hd Htr _].
    - left; exact Htr.
    - left; exact Htr.
    - right; exists d, filters; split; [exact Hd|exact Htr]. }
  destruct c; try (apply H; discriminate).
  unfold run. rewrite combined_run. reflexivity.
Qed.

(** X1.  No method lets a [RequestException] out, whatever the remote does:
    a call returns, or raises one of the other exceptions. *)
Theorem no_request_exception_escapes :
  forall remote api_key c movie_id limit,
    fst (run (resolve remote api_key c movie_id limit)) <> Raise RequestException.
Proof.
  intros remote api_key c movie_id limit.
  destruct (criterion_eq_Combined c) as [-> | Hc].
  - unfold run. rewrite combined_run. apply answered_not_request.
  - unfold run.
    destruct (resolve_course remote api_key c movie_id limit [] Hc)
      as [_ _ Ho | d _ _ [Ho | [e [Ho He]]] | d filters _ _ Ho]; rewrite Ho.
    + discriminate.
    + discriminate.
    + intros H; injection H as ->. apply He; reflexivity.
    + apply answered_not_request.
Qed.

(** X2.  A call issues one request or two: the native recommendations their
    one request; every other method the detail request first and then at most
    one discovery query, and none when the detail request failed. *)
Theorem request_budget :
  forall remote api_key c movie_id limit,
    let tr := snd (run (resolve remote api_key c movie_id limit)) in
    (c = Combined -> tr = [recommendations_request api_key movie_id]) /\
    (c <> Combined ->
       tr = [detail_request api_key movie_id] \/
       exists filters,
         tr = [detail_request api_key movie_id; discover api_key filters]) /\
    (c <> Combined ->
       failed (remote (detail_request api_key movie_id)) ->
       tr = [detail_request api_key movie_id]).
Proof.
  intros remote api_key c movie_id limit tr. subst tr.
  pose proof (resolve_trace remote api_key c movie_id limit) as H.
  repeat split.
  - intros ->. exact H.
  - intros Hc. destruct c; try congruence;
      (destruct H as [H | [d [filters [_ H]]]];
       [left; exact H | right; exists filters; exact H]).
  - intros Hc Hfail. destruct c; try congruence;
      (destruct H as [H | [d [filters [Hd _]]]];
       [exact H | rewrite Hd in Hfail; destruct Hfail]).
Qed.

(** X3.  Every request a method issues carries the key as [api_key], and
    every discovery query asks for the order [popularity.desc] and the
    language [en-US]. *)
Theorem requests_carry_key_and_order :
  forall remote api_key c movie_id limit req,
    In req (snd (run (resolve remote api_key c movie_id limit))) ->
    param "api_key" (params req) = Some (PStr api_key) /\
    (endpoint_of req = Discover ->
       In ("sort_by", PStr "popularity.desc") (params req) /\
       In ("language", PStr "en-US") (params req)).
Proof.
  intros remote api_key c movie_id limit req Hin.
  assert (Hreq : req = recommendations_request api_key movie_id \/
                 req = detail_request api_key movie_id \/
                 exists filters, req = discover api_key filters).
  { pose proof (resolve_trace remote api_key c movie_id limit) as H.
    destruct c;
      try (destruct H as [H | [d [filters [_ H]]]]; rewrite H in Hin; simpl in Hin;
           [ destruct Hin as [<- | []]; right; left; reflexivity
           | destruct Hin as [<- | [<- | []]];
             [ right; left; reflexivity
             | right; right; exists filters; reflexivity ] ]).
    rewrite H in Hin. simpl in Hin. destruct Hin as [<- | []].
    left; reflexivity. }
  destruct Hreq as [-> | [-> | [filters ->]]].
  - split; [reflexivity|discriminate].
  - split; [reflexivity|discriminate].
  - split; [reflexivity|]. intros _. simpl. split; right; apply in_or_app; right.
    + left; reflexivity.
    + right; left; reflexivity.
Qed.

Lemma requests_carry_key_and_order_witness :
  param "api_key"
    (params (discover Sample.key [("with_crew", PVal (JInt 525))])) =
    Some (PStr Sample.key) /\
  (endpoint_of (discover Sample.key [("with_crew", PVal (JInt 525))]) = Discover ->
     In ("sort_by", PStr "popularity.desc")
        (params (discover Sample.key [("with_crew", PVal (JInt 525))])) /\
     In ("language", PStr "en-US")
        (params (discover Sample.key [("with_crew", PVal (JInt 525))]))).
Proof.
  refine (requests_carry_key_and_order
            Sample.api Sample.key Director Sample.inception_id 10
            (discover Sample.key [("with_crew", PVal (JInt 525))]) _).
  right; left; reflexivity.
Defined.


(** ** Order and limit *)

Lemma subseq_refl {A} (xs : list A) : subseq xs xs.
Proof. induction xs; constructor; assumption. Qed.

Lemma subseq_nil_l {A} (ys : list A) : subseq [] ys.
Proof. induction ys; constructor; assumption. Qed.

Lemma subseq_firstn {A} n (xs : list A) : subseq (firstn n xs) xs.
Proof.
  revert n. induction xs as [|x xs IH]; intros [|n]; simpl.
  - constructor.
  - constructor.
  - apply subseq_nil_l.
  - apply subseq_keep, IH.
Qed.

Lemma subseq_filter {A} (f : A -> bool) (xs : list A) : subseq (filter f xs) xs.
Proof.
  induction xs as [|x xs IH]; simpl; [constructor|].
  destruct (f x); constructor; assumption.
Qed.

Lemma subseq_trans {A} (xs ys zs : list A) :
  subseq xs ys -> subseq ys zs -> subseq xs zs.
Proof.
  intros Hxy Hyz. revert xs Hxy.
  induction Hyz as [|z ys zs _ IH|z ys zs _ IH]; intros xs Hxy.
  - exact Hxy.
  - apply subseq_skip, IH, Hxy.
  - inversion Hxy as [|x xs' ys' H|x xs' ys' H]; subst.
    + apply subseq_skip, IH, H.
    + apply subseq_keep, IH, H.
Qed.

(** A list computed from an answer holds entries of its [results], in their
    order. *)
Lemma postprocess_subseq c movie_id limit data movies :
  postprocess c movie_id limit data = Ok (JArr movies) ->
  exists results items,
    Py.getitem data "results" = Ok results /\
    Py.iter results = Ok items /\
    subseq movies items.
Proof.
  unfold postprocess. destruct (filtering c).
  - intros H. apply results_excluding_Ok in H.
    destruct H as [results [items [Hr [Hi [_ Hv]]]]].
    injection Hv as ->. exists results, items. repeat split; try assumption.
    eapply subseq_trans; [apply subseq_firstn|apply subseq_filter].
  - unfold results_upto.
    destruct (Py.getitem data "results") as [results|]; simpl; [|discriminate].
    destruct results; simpl; try discriminate.
    intros H; injection H as <-.
    eexists; eexists. repeat split. apply subseq_firstn.
Qed.

(** X5.  No method reorders or invents entries: a returned list is empty, or
    it holds entries of the [results] of the answer to a request the call
    issued, in the order of the answer. *)
Theorem results_keep_order :
  forall remote api_key c movie_id limit movies tr,
    run (resolve remote api_key c movie_id limit) = (Ok (JArr movies), tr) ->
    movies = [] \/
    exists req data results items,
      In req tr /\
      remote req = Body data /\
      Py.getitem data "results" = Ok results /\
      Py.iter results = Ok items /\
      subseq movies items.
Proof.
  intros remote api_key c movie_id limit movies tr Hrun.
  assert (Hv : movies = [] \/
    exists req data, In req tr /\ remote req = Body data /\
      postprocess c movie_id limit data = Ok (JArr movies)).
  { unfold run in Hrun. destruct (criterion_eq_Combined c) as [-> | Hc].
    - rewrite combined_run in Hrun. injection Hrun as Ho <-.
      apply answered_Ok in Ho. destruct Ho as [Ho | [data [Hd Hk]]].
      + left. injection Ho as ->. reflexivity.
      + right. eexists; exists data. split; [left; reflexivity|].
        split; assumption.
    - pose proof (resolve_course remote api_key c movie_id limit [] Hc) as H.
      rewrite Hrun in H. simpl in H.
      destruct H as [_ _ Ho | d _ _ [Ho | [e [Ho _]]] | d filters _ Htr Ho].
      + left. injection Ho as ->. reflexivity.
      + left. injection Ho as ->. reflexivity.
      + discriminate.
      + symmetry in Ho. apply answered_Ok in Ho.
        destruct Ho as [Ho | [data [Hd Hk]]].
        * left. injection Ho as ->. reflexivity.
        * right. eexists; exists data. split; [|split; eassumption].
          rewrite Htr. right; left; reflexivity. }
  destruct Hv as [-> | [req [data [Hin [Hd Hk]]]]]; [left; reflexivity|].
  right. apply postprocess_subseq in Hk.
  destruct Hk as [results [items [Hr [Hi Hs]]]].
  exists req, data, results, items. repeat split; assumption.
Qed.

Lemma results_keep_order_witness :
  run (resolve Sample.api Sample.key Rating Sample.inception_id 2) =
    (Ok (JArr [Sample.dark_knight; Sample.interstellar]),
     [detail_request Sample.key Sample.inception_id;
      discover Sample.key
        (rating_filters (Py.NFloat 7.5%float) (Py.NFloat 9.5%float)
           [JInt 28; JInt 878; JInt 12])]) /\
  ([Sample.dark_knight; Sample.interstellar] = [] \/
   exists req data results items,
     In req [detail_request Sample.key Sample.inception_id;
             discover Sample.key
               (rating_filters (Py.NFloat 7.5%float) (Py.NFloat 9.5%float)
                  [JInt 28; JInt 878; JInt 12])] /\
     Sample.api req = Body data /\
     Py.getitem data "results" = Ok results /\
     Py.iter results = Ok items /\
     subseq [Sample.dark_knight; Sample.interstellar] items).
Proof.
  refine ((fun Hrun => conj Hrun
    (results_keep_order Sample.api Sample.key Rating _ 2 _ _ Hrun)) eq_refl).
Defined.

(** *** Two limits *)

Section TwoLimits.

Variable remote : remote_api.
Variable api_key : string.

Ltac finish_agree :=
  first
  [ apply Unqueried;
    [ reflexivity
    | simpl; first [left; reflexivity | right; eexists; reflexivity] ]
  | rewrite !query_run; eapply BothQueried;
    simpl; rewrite <- app_assoc; reflexivity ].

Ltac walk_both :=
  simpl;
  first
  [ finish_agree
  | match goal with
    | |- context [match ?x with _ => _ end] => destruct x eqn:?; walk_both
    end ].

Ltac agree_of method :=
  unfold method, bind;
  rewrite !get_movie_details_run;
  match goal with
  | |- context [remote ?r] =>
      destruct (remote r);
      [ simpl; apply Unqueried; [reflexivity | left; reflexivity] ..
      | unfold lift, ret; walk_both ]
  end.

Lemma genre_agree movie_id a b tr :
  agree remote api_key movie_id (results_upto a) (results_upto b) tr
    (get_recommendations_by_genre remote api_key movie_id a tr)
    (get_recommendations_by_genre remote api_key movie_id b tr).
Proof. agree_of get_recommendations_by_genre. Qed.

Lemma director_agree movie_id a b tr :
  agree remote api_key movie_id
    (results_excluding movie_id a) (results_excluding movie_id b) tr
    (get_recommendations_by_director remote api_key movie_id a tr)
    (get_recommendations_by_director remote api_key movie_id b tr).
Proof. agree_of get_recommendations_by_director. Qed.

Lemma cast_agree movie_id a b tr :
  agree remote api_key movie_id
    (results_excluding movie_id a) (results_excluding movie_id b) tr
    (get_recommendations_by_cast remote api_key movie_id a tr)
    (get_recommendations_by_cast remote api_key movie_id b tr).
Proof. agree_of get_recommendations_by_cast. Qed.

Lemma keywords_agree movie_id a b tr :
  agree remote api_key movie_id
    (results_excluding movie_id a) (results_excluding movie_id b) tr
    (get_recommendations_by_keywords remote api_key movie_id a tr)
    (get_recommendations_by_keywords remote api_key movie_id b tr).
Proof. agree_of get_recommendations_by_keywords. Qed.

Lemma rating_agree movie_id a b tr :
  agree remote api_key movie_id
    (results_excluding movie_id a) (results_excluding movie_id b) tr
    (get_recommendations_by_rating remote api_key movie_id a tr)
    (get_recommendations_by_rating remote api_key movie_id b tr).
Proof. agree_of get_recommendations_by_rating. Qed.

Lemma resolve_agree c movie_id a b tr :
  c <> Combined ->
  agree remote api_key movie_id
    (postprocess c movie_id a) (postprocess c movie_id b) tr
    (resolve remote api_key c movie_id a tr)
    (resolve remote api_key c movie_id b tr).
Proof.
  destruct c; intros Hc; try congruence; unfold postprocess; simpl.
  - apply genre_agree.
  - apply director_agree.
  - apply cast_agree.
  - apply keywords_agree.
  - apply rating_agree.
Qed.

End TwoLimits.

Lemma substring_substring (a b : nat) s :
  (a <= b)%nat ->
  String.substring 0 a (String.substring 0 b s) = String.substring 0 a s.
Proof.
  revert b s. induction a as [|a IH]; intros b s Hab.
  - destruct (String.substring 0 b s); destruct s; reflexivity.
  - destruct b as [|b]; [lia|]. destruct s as [|c s]; simpl; [reflexivity|].
    rewrite IH by lia. reflexivity.
Qed.

(** Slicing to [a] what was sliced to [b >= a] is slicing to [a]. *)
Lemma slice_to_twice x a b :
  0 <= a <= b ->
  Py.slice_to x a = rbind (Py.slice_to x b) (fun v => Py.slice_to v a).
Proof.
  intros [Ha Hab]. assert (Hb : 0 <= b) by lia.
  destruct x; simpl; try reflexivity;
    rewrite !(slice_stop_nonneg a) by exact Ha;
    rewrite !(slice_stop_nonneg b) by exact Hb.
  - rewrite substring_substring by lia. reflexivity.
  - rewrite firstn_firstn. rewrite Nat.min_l by lia. reflexivity.
Qed.

Lemma excluding_Ok_or_not_request movie_id ms e :
  Py.excluding movie_id ms = Raise e -> e <> RequestException.
Proof.
  revert e. induction ms as [|m ms IH]; intros e; simpl; [discriminate|].
  destruct (Py.getitem m "id") as [i|e'] eqn:Hi; simpl.
  - destruct (Py.excluding movie_id ms) as [kept|e'']; simpl; [discriminate|].
    intros H; injection H as <-. apply IH; reflexivity.
  - intros H; injection H as <-. intros ->.
    exact (getitem_not_request _ _ Hi).
Qed.

Lemma postprocess_not_request c movie_id limit data :
  postprocess c movie_id limit data <> Raise RequestException.
Proof.
  unfold postprocess. destruct (filtering c).
  - unfold results_excluding.
    destruct (Py.getitem data "results") as [results|e] eqn:Hr; simpl;
      [|intros H; injection H as ->; exact (getitem_not_request _ _ Hr)].
    destruct (Py.iter results) as [items|e] eqn:Hi; simpl;
      [|intros H; injection H as ->; exact (iter_not_request _ Hi)].
    destruct (Py.excluding movie_id items) as [kept|e] eqn:Hk; simpl.
    + discriminate.
    + intros H; injection H as ->.
      exact (excluding_Ok_or_not_request _ _ _ Hk eq_refl).
  - unfold results_upto.
    destruct (Py.getitem data "results") as [results|e] eqn:Hr; simpl;
      [|intros H; injection H as ->; exact (getitem_not_request _ _ Hr)].
    apply slice_to_not_request.
Qed.

Lemma postprocess_twice c movie_id a b data :
  0 <= a <= b ->
  postprocess c movie_id a data =
  rbind (postprocess c movie_id b data) (fun v => Py.slice_to v a).
Proof.
  intros Hab. unfold postprocess, results_excluding, results_upto.
  destruct (filtering c).
  - destruct (Py.getitem data "results") as [results|]; simpl; [|reflexivity].
    destruct (Py.iter results) as [items|]; simpl; [|reflexivity].
    destruct (Py.excluding movie_id items) as [kept|]; simpl; [|reflexivity].
    apply (slice_to_twice (JArr kept)), Hab.
  - destruct (Py.getitem data "results") as [results|]; simpl; [|reflexivity].
    apply slice_to_twice, Hab.
Qed.

Lemma slice_to_empty n : Py.slice_to (JArr []) n = Ok (JArr []).
Proof. simpl. rewrite firstn_nil. reflexivity. Qed.

Lemma answered_twice c movie_id a b r :
  0 <= a <= b ->
  answered (postprocess c movie_id a) r =
  rbind (answered (postprocess c movie_id b) r) (fun v => Py.slice_to v a).
Proof.
  intros Hab. destruct r as [| | |data].
  1-3: symmetry; apply slice_to_empty.
  unfold answered. rewrite (postprocess_twice c movie_id a b data Hab).
  pose proof (postprocess_not_request c movie_id b data) as Hb.
  destruct (postprocess c movie_id b data) as [v|e]; simpl.
  - pose proof (slice_to_not_request v a) as Hs.
    destruct (Py.slice_to v a) as [w|[]]; try reflexivity. congruence.
  - destruct e; try reflexivity. congruence.
Qed.

(** X6.  With limits [0 <= a <= b], the call with limit [a] issues the same
    requests as the call with limit [b] and ends like it: it raises what that
    one raises, and returns the first [a] entries of what that one returns. *)
Theorem smaller_limit_is_prefix :
  forall remote api_key c movie_id a b,
    0 <= a <= b ->
    run (resolve remote api_key c movie_id a) =
    (rbind (fst (run (resolve remote api_key c movie_id b)))
           (fun v => Py.slice_to v a),
     snd (run (resolve remote api_key c movie_id b))).
Proof.
  intros remote api_key c movie_id a b Hab. unfold run.
  destruct (criterion_eq_Combined c) as [-> | Hc].
  - rewrite !combined_run. simpl.
    rewrite (answered_twice Combined movie_id a b _ Hab). reflexivity.
  - destruct (resolve_agree remote api_key c movie_id a b [] Hc)
      as [Heq [Ho | [e Ho]] | filters Ha Hb].
    + rewrite <- Heq.
      destruct (resolve remote api_key c movie_id a []) as [o tr].
      simpl in Ho. subst o. simpl. rewrite firstn_nil. reflexivity.
    + rewrite <- Heq.
      destruct (resolve remote api_key c movie_id a []) as [o tr].
      simpl in Ho. subst o. reflexivity.
    + rewrite Ha, Hb. simpl.
      rewrite (answered_twice c movie_id a b _ Hab). reflexivity.
Qed.

Lemma smaller_limit_is_prefix_witness :
  0 <= 2 <= 5 /\
  run (resolve Sample.api Sample.key Keywords Sample.inception_id 2) =
  (rbind (fst (run (resolve Sample.api Sample.key Keywords Sample.inception_id 5)))
         (fun v => Py.slice_to v 2),
   snd (run (resolve Sample.api Sample.key Keywords Sample.inception_id 5))).
Proof.
  refine ((fun H => conj H
    (smaller_limit_is_prefix Sample.api Sample.key Keywords
       Sample.inception_id 2 5 H)) _).
  lia.
Defined.

(** ** A damaged answer *)

Lemma excluding_first_bad movie_id good bad rest e :
  Forall has_id good ->
  Py.getitem bad "id" = Raise e ->
  Py.excluding movie_id (good ++ bad :: rest) = Raise e.
Proof.
  intros Hgood Hbad. induction Hgood as [|m good [i Hi] _ IH]; simpl.
  - rewrite Hbad. reflexivity.
  - rewrite Hi, IH. reflexivity.
Qed.

(** X7.  In director, cast, keywords and rating the filter reads the id of
    every entry of the answer before the limit cuts: an entry without a
    readable id, wherever it stands and whatever the limit, makes the call
    raise what reading that id raises. *)
Theorem entry_without_id_raises :
  forall remote api_key c movie_id limit o tr req data good bad rest e,
    c <> Genre -> c <> Combined ->
    run (resolve remote api_key c movie_id limit) = (o, tr) ->
    In req tr -> endpoint_of req = Discover ->
    remote req = Body data ->
    Py.getitem data "results" = Ok (JArr (good ++ bad :: rest)) ->
    Forall has_id good ->
    Py.getitem bad "id" = Raise e ->
    o = Raise e.
Proof.
  intros remote api_key c movie_id limit o tr req data good bad rest e
         Hg Hc Hrun Hin Hep Hbody Hres Hgood Hbad.
  assert (Hk : postprocess c movie_id limit = results_excluding movie_id limit)
    by (destruct c; try reflexivity; congruence).
  pose proof (resolve_course remote api_key c movie_id limit [] Hc) as Hcourse.
  unfold run in Hrun. rewrite Hrun, Hk in Hcourse. simpl in Hcourse.
  destruct Hcourse as [_ Htr _ | d _ Htr _ | d filters _ Htr Ho];
    subst tr; simpl in Hin.
  - destruct Hin as [<- | []]. discriminate Hep.
  - destruct Hin as [<- | []]. discriminate Hep.
  - destruct Hin as [<- | [<- | []]]; [discriminate Hep|].
    rewrite Hbody in Ho. simpl in Ho.
    unfold results_excluding in Ho. rewrite Hres in Ho. simpl in Ho.
    rewrite (excluding_first_bad _ _ _ _ _ Hgood Hbad) in Ho. simpl in Ho.
    destruct e; try exact Ho.
    exfalso. exact (getitem_not_request _ _ Hbad).
Qed.

Lemma entry_without_id_raises_witness :
  run (resolve Sample.damaged Sample.key Director Sample.inception_id 1) =
    (Raise KeyError,
     [detail_request Sample.key Sample.inception_id;
      discover Sample.key [("with_crew", PVal (JInt 525))]]) /\
  @Raise json KeyError = Raise KeyError.
Proof.
  refine ((fun Hrun => conj Hrun
    (entry_without_id_raises Sample.damaged Sample.key Director _ 1 _ _
       (discover Sample.key [("with_crew", PVal (JInt 525))])
       _ [Sample.dark_knight; Sample.interstellar]
       (JObj [("title", JStr "The Prestige")]) [] KeyError
       _ _ Hrun _ eq_refl eq_refl eq_refl _ eq_refl)) eq_refl).
  - discriminate.
  - discriminate.
  - right; left; reflexivity.
  - repeat constructor; eexists; reflexivity.
Defined.

(** ** Searching *)

(** X8.  [search_movie] returns the first entry of a list of results that
    is not empty, whatever follows it; it returns [None] for an empty list
    and after any transport failure; an answer without [results] raises
    [KeyError]. *)
Theorem search_movie_best_match :
  forall search api_key title,
    (forall data first others,
        search (search_params api_key title) = Body data ->
        Py.getitem data "results" = Ok (JArr (first :: others)) ->
        search_movie search api_key title = Ok first) /\
    (forall data,
        search (search_params api_key title) = Body data ->
        Py.getitem data "results" = Ok (JArr []) ->
        search_movie search api_key title = Ok JNull) /\
    (failed (search (search_params api_key title)) ->
     search_movie search api_key title = Ok JNull) /\
    (forall kvs,
        search (search_params api_key title) = Body (JObj kvs) ->
        Py.assoc "results" kvs = None ->
        search_movie search api_key title = Raise KeyError).
Proof.
  intros search api_key title. unfold search_movie. repeat split.
  - intros data first others -> Hr. rewrite Hr. reflexivity.
  - intros data -> Hr. rewrite Hr. reflexivity.
  - destruct (search (search_params api_key title)); simpl;
      intros H; [reflexivity..|destruct H].
  - intros kvs -> Hr. simpl. rewrite Hr. reflexivity.
Qed.

Lemma search_movie_best_match_witness :
  search_movie Sample.found Sample.key "inception" = Ok Sample.itself.
Proof.
  refine (proj1 (search_movie_best_match Sample.found Sample.key "inception")
            _ Sample.itself [Sample.prestige] eq_refl eq_refl).
Defined.

(** X9.  [search_movie] never lets a [RequestException] out, and what it
    returns is [None] or an item of the [results] of the answer. *)
Theorem search_movie_returns_a_result :
  forall search api_key title,
    search_movie search api_key title <> Raise RequestException /\
    forall v,
      search_movie search api_key title = Ok v ->
      v = JNull \/
      exists data results items,
        search (search_params api_key title) = Body data /\
        Py.getitem data "results" = Ok results /\
        Py.iter results = Ok items /\
        In v items.
Proof.
  intros search api_key title. unfold search_movie.
  destruct (search (search_params api_key title)) as [| | |data];
    try (split; [discriminate|intros v H; injection H as <-; left; reflexivity]).
  destruct (Py.getitem data "results") as [results|e] eqn:Hr; simpl.
  - split.
    + destruct (best_match results) as [v|[]] eqn:Hb; try discriminate.
    + intros v Hv.
      assert (Hb : best_match results = Ok v \/ v = JNull).
      { destruct (best_match results) as [w|[]]; try discriminate;
          injection Hv as <-; [left|right]; reflexivity. }
      destruct Hb as [Hb | ->]; [|left; reflexivity].
      destruct results as [|b|n|f|s|xs|kvs]; simpl in Hb.
      * injection Hb as <-; left; reflexivity.
      * destruct b; [discriminate|injection Hb as <-; left; reflexivity].
      * destruct (n =? 0); [injection Hb as <-; left; reflexivity|discriminate].
      * destruct (PrimFloat.eqb f 0%float);
          [injection Hb as <-; left; reflexivity|discriminate].
      * destruct s as [|c s]; injection Hb as <-; [left; reflexivity|].
        right. exists data; eexists; eexists.
        repeat split; [exact Hr|reflexivity|]. left; reflexivity.
      * destruct xs as [|x xs]; injection Hb as <-; [left; reflexivity|].
        right. exists data; eexists; eexists.
        repeat split; [exact Hr|reflexivity|]. left; reflexivity.
      * destruct kvs; [injection Hb as <-; left; reflexivity|discriminate].
  - split.
    + destruct e; discriminate.
    + intros v Hv. destruct e; try discriminate.
      exfalso. exact (getitem_not_request _ _ Hr).
Qed.

Lemma search_movie_returns_a_result_witness :
  Sample.itself = JNull \/
  exists data results items,
    Sample.found (search_params Sample.key "inception") = Body data /\
    Py.getitem data "results" = Ok results /\
    Py.iter results = Ok items /\
    In Sample.itself items.
Proof.
  refine (proj2 (search_movie_returns_a_result Sample.found Sample.key "inception")
            Sample.itself eq_refl).
Defined.

(** ** Displaying *)



Lemma year_of_showable kvs :
  (forall date, Py.assoc "release_date" kvs = Some date -> showable_date date) ->
  exists year, year_of (JObj kvs) = Ok year.
Proof.
  intros H. unfold year_of. simpl.
  destruct (Py.assoc "release_date" kvs) as [date|]; [|eexists; reflexivity].
  destruct (H date eq_refl) as [Hf | [[s ->] | [xs ->]]].
  - rewrite Hf. eexists; reflexivity.
  - destruct (Py.truthy (JStr s)); eexists; reflexivity.
  - destruct (Py.truthy (JArr xs)); eexists; reflexivity.
Qed.

Lemma entry_line_showable i movie :
  showable movie -> exists l, entry_line i movie = Ok l.
Proof.
  intros [kvs [-> H]]. unfold entry_line.
  destruct (year_of_showable kvs H) as [year Hy]. rewrite Hy. simpl.
  eexists; reflexivity.
Qed.

(** The loop over showable entries prints one line for each, the line of
    the entry at offset [k] with the number [i + k]. *)
Lemma entry_lines_showable movies :
  Forall showable movies ->
  forall i, exists ls,
    entry_lines i movies = (ls, Ok tt) /\
    List.length ls = List.length movies /\
    forall k movie,
      nth_error movies k = Some movie ->
      exists l,
        entry_line (i + Z.of_nat k) movie = Ok l /\ nth_error ls k = Some l.
Proof.
  induction 1 as [|movie movies Hm _ IH]; intros i.
  - exists []. repeat split. intros [|k] movie H; discriminate H.
  - destruct (entry_line_showable i movie Hm) as [l Hl].
    destruct (IH (i + 1)) as [ls [Hls [Hlen Hnth]]].
    exists (l :: ls). simpl. rewrite Hl, Hls. repeat split.
    + simpl. rewrite Hlen. reflexivity.
    + intros [|k] m Hk; simpl in Hk.
      * injection Hk as <-. exists l. rewrite Z.add_0_r. split; [exact Hl|reflexivity].
      * destruct (Hnth k m Hk) as [l' [Hl' Hn']]. exists l'. split; [|exact Hn'].
        rewrite <- Hl'. f_equal. lia.
Qed.

(** X11.  For a list of movies that is not empty, each a dict whose
    [release_date] can be shown, [display_recommendations] returns after
    printing the three lines of the banner and then one line for each movie,
    in the order of the list and numbered from 1. *)
Theorem display_numbers_every_movie :
  forall movies criteria,
    movies <> [] ->
    Forall showable movies ->
    exists ls,
      display_recommendations (JArr movies) criteria =
        (banner criteria ++ ls, Ok tt) /\
      List.length ls = List.length movies /\
      forall k movie,
        nth_error movies k = Some movie ->
        exists l,
          entry_line (Z.of_nat k + 1) movie = Ok l /\
          nth_error ls k = Some l /\
          exists fields, l = Lit nl :: Str (JInt (Z.of_nat k + 1)) :: fields.
Proof.
  intros movies criteria Hne Hall.
  destruct (entry_lines_showable movies Hall 1) as [ls [Hls [Hlen Hnth]]].
  exists ls. unfold display_recommendations.
  destruct movies as [|m ms]; [congruence|].
  simpl Py.truthy. simpl negb. cbv iota. simpl Py.iter. cbv iota.
  rewrite Hls. repeat split; [exact Hlen|].
  intros k movie Hk. destruct (Hnth k movie Hk) as [l [Hl Hn]].
  rewrite Z.add_comm. exists l. repeat split; try assumption.
  unfold entry_line in Hl.
  destruct (Py.get movie "title" (JStr "Unknown")); simpl in Hl; [|discriminate].
  destruct (year_of movie); simpl in Hl; [|discriminate].
  destruct (Py.get movie "vote_average" (JInt 0)); simpl in Hl; [|discriminate].
  injection Hl as <-. eexists; reflexivity.
Qed.

Lemma display_numbers_every_movie_witness :
  exists ls,
    display_recommendations
      (JArr [Sample.released 155 "The Dark Knight" "2008-07-16";
             Sample.prestige]) "Director" =
      (banner "Director" ++ ls, Ok tt) /\
    List.length ls =
      List.length [Sample.released 155 "The Dark Knight" "2008-07-16";
                   Sample.prestige] /\
    forall k movie,
      nth_error [Sample.released 155 "The Dark Knight" "2008-07-16";
                 Sample.prestige] k = Some movie ->
      exists l,
        entry_line (Z.of_nat k + 1) movie = Ok l /\
        nth_error ls k = Some l /\
        exists fields, l = Lit nl :: Str (JInt (Z.of_nat k + 1)) :: fields.
Proof.
  refine (display_numbers_every_movie
            [Sample.released 155 "The Dark Knight" "2008-07-16"; Sample.prestige]
            "Director" _ _).
  - discriminate.
  - repeat constructor; eexists; (split; [reflexivity|]); intros date H;
      vm_compute in H; [|discriminate].
    injection H as <-. right; left; eexists; reflexivity.
Defined.

(** ** From a method to the display *)

Lemma year_of_dict kvs :
  (exists year, year_of (JObj kvs) = Ok year) \/
  year_of (JObj kvs) = Raise TypeError.
Proof.
  unfold year_of. simpl.
  destruct (Py.assoc "release_date" kvs) as [date|]; [|left; eexists; reflexivity].
  destruct (Py.truthy date); [|left; eexists; reflexivity].
  simpl. destruct date; simpl;
    first [left; eexists; reflexivity | right; reflexivity].
Qed.

Lemma entry_lines_dicts movies :
  Forall has_id movies ->
  forall i,
    snd (entry_lines i movies) = Ok tt \/
    snd (entry_lines i movies) = Raise TypeError.
Proof.
  induction 1 as [|movie movies [id Hid] _ IH]; intros i; simpl.
  - left; reflexivity.
  - apply getitem_Ok_inv in Hid. destruct Hid as [kvs [-> _]].
    unfold entry_line. simpl Py.get. cbv beta iota. unfold rbind at 1.
    destruct (year_of_dict kvs) as [[year ->] | ->]; simpl.
    + destruct (entry_lines (i + 1) movies) as [ls ending] eqn:E.
      specialize (IH (i + 1)). rewrite E in IH. exact IH.
    + right; reflexivity.
Qed.

(** What a filtering method returns is a list of entries that carry ids. *)
Lemma filtering_returns_entries remote api_key c movie_id limit v tr :
  c <> Genre -> c <> Combined ->
  run (resolve remote api_key c movie_id limit) = (Ok v, tr) ->
  exists movies, v = JArr movies /\ Forall has_id movies.
Proof.
  intros Hg Hc Hrun.
  assert (Hk : postprocess c movie_id limit = results_excluding movie_id limit)
    by (destruct c; try reflexivity; congruence).
  pose proof (resolve_course remote api_key c movie_id limit [] Hc) as Hcourse.
  unfold run in Hrun. rewrite Hrun, Hk in Hcourse. simpl in Hcourse.
  apply course_Ok in Hcourse. destruct Hcourse as [-> | [data Hdata]].
  - exists []. split; [reflexivity|constructor].
  - apply results_excluding_Ok in Hdata.
    destruct Hdata as [results [movies [_ [_ [Hall ->]]]]].
    eexists. split; [reflexivity|].
    apply Forall_firstn_keeps.
    apply Forall_forall. intros m Hm. apply filter_In in Hm.
    exact (proj1 (Forall_forall _ _) Hall m (proj1 Hm)).
Qed.

(** X12.  What director, cast, keywords or rating returns can be handed to
    [display_recommendations]: it is a list and every entry is a dict, so the
    display never fails with [AttributeError] for want of [get]. *)
Theorem filtered_results_can_be_displayed :
  forall remote api_key c movie_id limit v tr criteria,
    c <> Genre -> c <> Combined ->
    run (resolve remote api_key c movie_id limit) = (Ok v, tr) ->
    (exists movies, v = JArr movies) /\
    snd (display_recommendations v criteria) <> Raise AttributeError.
Proof.
  intros remote api_key c movie_id limit v tr criteria Hg Hc Hrun.
  destruct (filtering_returns_entries _ _ _ _ _ _ _ Hg Hc Hrun)
    as [movies [-> Hall]].
  split; [exists movies; reflexivity|].
  unfold display_recommendations.
  destruct movies as [|m ms]; [discriminate|].
  simpl Py.truthy. simpl negb. cbv iota. simpl Py.iter. cbv iota.
  pose proof (entry_lines_dicts (m :: ms) Hall 1) as H.
  destruct (entry_lines 1 (m :: ms)) as [ls ending]. simpl in *.
  destruct H as [-> | ->]; discriminate.
Qed.

Lemma filtered_results_can_be_displayed_witness :
  run (resolve Sample.api Sample.key Director Sample.inception_id 10) =
    (Ok (JArr [Sample.dark_knight; Sample.interstellar; Sample.prestige]),
     [detail_request Sample.key Sample.inception_id;
      discover Sample.key [("with_crew", PVal (JInt 525))]]) /\
  ((exists movies,
      JArr [Sample.dark_knight; Sample.interstellar; Sample.prestige] =
      JArr movies) /\
   snd (display_recommendations
          (JArr [Sample.dark_knight; Sample.interstellar; Sample.prestige])
          "Director") <> Raise AttributeError).
Proof.
  refine ((fun Hrun => conj Hrun
    (filtered_results_can_be_displayed Sample.api Sample.key Director _ 10 _ _
       "Director" _ _ Hrun)) eq_refl); discriminate.
Defined.

Lemma failed_request_gives_empty remote api_key c movie_id limit o tr req :
  run (resolve remote api_key c movie_id limit) = (o, tr) ->
  In req tr -> failed (remote req) -> o = Ok (JArr []).
Proof.
  intros Hrun Hin Hfail. unfold run in Hrun.
  destruct (criterion_eq_Combined c) as [-> | Hc].
  - rewrite combined_run in Hrun.
    injection Hrun as <- <-. simpl in Hin. destruct Hin as [<- | []].
    apply answered_failed, Hfail.
  - pose proof (resolve_course remote api_key c movie_id limit [] Hc) as H.
    rewrite Hrun in H. simpl in H.
    destruct H as [_ _ Ho | d Hd Htr _ | d filters Hd Htr Ho].
    + exact Ho.
    + subst tr. simpl in Hin. destruct Hin as [<- | []].
      rewrite Hd in Hfail. destruct Hfail.
    + subst tr. simpl in Hin. destruct Hin as [<- | [<- | []]].
      * rewrite Hd in Hfail. destruct Hfail.
      * rewrite Ho. apply answered_failed, Hfail.
Qed.

(** X13.  After a transport failure of any request of a call, what the call
    returns makes [display_recommendations] print the one line "No
    recommendations found based on ..." and nothing else. *)
Theorem failure_is_displayed_as_no_recommendations :
  forall remote api_key c movie_id limit o tr req criteria,
    run (resolve remote api_key c movie_id limit) = (o, tr) ->
    In req tr -> failed (remote req) ->
    exists v,
      o = Ok v /\
      display_recommendations v criteria =
        ([no_recommendations criteria], Ok tt).
Proof.
  intros remote api_key c movie_id limit o tr req criteria Hrun Hin Hfail.
  rewrite (failed_request_gives_empty _ _ _ _ _ _ _ _ Hrun Hin Hfail).
  eexists. split; reflexivity.
Qed.

Lemma failure_is_displayed_as_no_recommendations_witness :
  exists v,
    Ok (JArr []) = Ok v /\
    display_recommendations v "Genre" = ([no_recommendations "Genre"], Ok tt).
Proof.
  refine (failure_is_displayed_as_no_recommendations
            Sample.offline Sample.key Genre Sample.inception_id 10
            (Ok (JArr [])) [detail_request Sample.key Sample.inception_id]
            (detail_request Sample.key Sample.inception_id) "Genre"
            eq_refl _ I).
  left; reflexivity.
Defined.



Lemma request_budget_witness :
  snd (run (resolve Sample.offline Sample.key Cast Sample.inception_id 10)) =
  [detail_request Sample.key Sample.inception_id].
Proof.
  refine (proj2 (proj2 (request_budget
            Sample.offline Sample.key Cast Sample.inception_id 10)) _ I).
  discriminate.
Defined.

(** ** The limit at its edges *)

(** The outcome of a filtering method whose discovery query was answered. *)
Lemma answered_query_outcome remote api_key c movie_id limit o tr req data :
  c <> Genre -> c <> Combined ->
  run (resolve remote api_key c movie_id limit) = (o, tr) ->
  In req tr -> endpoint_of req = Discover ->
  remote req = Body data ->
  o = answered (results_excluding movie_id limit) (Body data).
Proof.
  intros Hg Hc Hrun Hin Hep Hbody.
  assert (Hk : postprocess c movie_id limit = results_excluding movie_id limit)
    by (destruct c; try reflexivity; congruence).
  pose proof (resolve_course remote api_key c movie_id limit [] Hc) as Hcourse.
  unfold run in Hrun. rewrite Hrun, Hk in Hcourse. simpl in Hcourse.
  destruct Hcourse as [_ Htr _ | d _ Htr _ | d filters _ Htr Ho];
    subst tr; simpl in Hin.
  - destruct Hin as [<- | []]. discriminate Hep.
  - destruct Hin as [<- | []]. discriminate Hep.
  - destruct Hin as [<- | [<- | []]]; [discriminate Hep|].
    rewrite Hbody in Ho. exact Ho.
Qed.

(** X15.  In director, cast, keywords and rating nothing but the source
    movie is dropped while the limit is not reached: when the answer lists
    entries that all carry an id, no more than [limit] of them other than the
    source movie, the call returns all of those, in the order of the answer. *)
Theorem below_limit_only_source_dropped :
  forall remote api_key c movie_id limit o tr req data results,
    c <> Genre -> c <> Combined ->
    run (resolve remote api_key c movie_id limit) = (o, tr) ->
    In req tr -> endpoint_of req = Discover ->
    remote req = Body data ->
    Py.getitem data "results" = Ok (JArr results) ->
    Forall has_id results ->
    Z.of_nat (List.length (filter (is_other movie_id) results)) <= limit ->
    o = Ok (JArr (filter (is_other movie_id) results)).
Proof.
  intros remote api_key c movie_id limit o tr req data results
         Hg Hc Hrun Hin Hep Hbody Hres Hall Hfew.
  rewrite (answered_query_outcome _ _ _ _ _ _ _ _ _ Hg Hc Hrun Hin Hep Hbody).
  simpl. rewrite (results_excluding_list _ limit _ _ Hres Hall).
  rewrite slice_stop_nonneg by lia.
  rewrite firstn_all2 by lia. reflexivity.
Qed.

Lemma below_limit_only_source_dropped_witness :
  run (resolve Sample.api Sample.key Keywords Sample.inception_id 10) =
    (Ok (JArr [Sample.dark_knight; Sample.interstellar; Sample.prestige]),
     [detail_request Sample.key Sample.inception_id;
      discover Sample.key
        [("with_keywords",
          PJoin [JInt 1014; JInt 1566; JInt 4565; JInt 5340; JInt 9882])]]) /\
  Ok (JArr [Sample.dark_knight; Sample.interstellar; Sample.prestige]) =
  Ok (JArr (filter (is_other Sample.inception_id)
              [Sample.dark_knight; Sample.itself;
               Sample.interstellar; Sample.prestige])).
Proof.
  refine ((fun Hrun => conj Hrun
    (below_limit_only_source_dropped Sample.api Sample.key Keywords _ 10 _ _
       (discover Sample.key
          [("with_keywords",
            PJoin [JInt 1014; JInt 1566; JInt 4565; JInt 5340; JInt 9882])])
       Sample.listing
       [Sample.dark_knight; Sample.itself; Sample.interstellar; Sample.prestige]
       _ _ Hrun _ eq_refl eq_refl eq_refl _ _)) eq_refl).
  - discriminate.
  - discriminate.
  - right; left; reflexivity.
  - repeat constructor; eexists; reflexivity.
  - vm_compute. discriminate.
Defined.

(** X16.  A negative limit cuts from the end: in director, cast, keywords
    and rating the call returns the entries other than the source movie
    without the last [-limit] of them. *)
Theorem negative_limit_cuts_from_the_end :
  forall remote api_key c movie_id limit o tr req data results,
    c <> Genre -> c <> Combined ->
    limit < 0 ->
    run (resolve remote api_key c movie_id limit) = (o, tr) ->
    In req tr -> endpoint_of req = Discover ->
    remote req = Body data ->
    Py.getitem data "results" = Ok (JArr results) ->
    Forall has_id results ->
    let others := filter (is_other movie_id) results in
    o = Ok (JArr (firstn (List.length others - Z.to_nat (- limit)) others)).
Proof.
  intros remote api_key c movie_id limit o tr req data results
         Hg Hc Hneg Hrun Hin Hep Hbody Hres Hall others.
  rewrite (answered_query_outcome _ _ _ _ _ _ _ _ _ Hg Hc Hrun Hin Hep Hbody).
  simpl. rewrite (results_excluding_list _ limit _ _ Hres Hall).
  fold others. unfold Py.slice_stop.
  destruct (Z.ltb_spec limit 0); [|lia].
  replace (Z.to_nat (Z.max 0 (Z.of_nat (List.length others) + limit)))
    with (List.length others - Z.to_nat (- limit))%nat by lia.
  reflexivity.
Qed.

Lemma negative_limit_cuts_from_the_end_witness :
  -2 < 0 /\
  run (resolve Sample.api Sample.key Rating Sample.inception_id (-2)) =
    (Ok (JArr [Sample.dark_knight]),
     [detail_request Sample.key Sample.inception_id;
      discover Sample.key
        (rating_filters (Py.NFloat 7.5%float) (Py.NFloat 9.5%float)
           [JInt 28; JInt 878; JInt 12])]) /\
  Ok (JArr [Sample.dark_knight]) =
  Ok (JArr (firstn
              (List.length
                 (filter (is_other Sample.inception_id)
                    [Sample.dark_knight; Sample.itself;
                     Sample.interstellar; Sample.prestige])
               - Z.to_nat (- -2))
              (filter (is_other Sample.inception_id)
                 [Sample.dark_knight; Sample.itself;
                  Sample.interstellar; Sample.prestige]))).
Proof.
  refine ((fun Hneg Hrun => conj Hneg (conj Hrun
    (negative_limit_cuts_from_the_end Sample.api Sample.key Rating _ (-2) _ _
       (discover Sample.key
          (rating_filters (Py.NFloat 7.5%float) (Py.NFloat 9.5%float)
             [JInt 28; JInt 878; JInt 12]))
       Sample.listing
       [Sample.dark_knight; Sample.itself; Sample.interstellar; Sample.prestige]
       _ _ Hneg Hrun _ eq_refl eq_refl eq_refl _))) _ eq_refl).
  - discriminate.
  - discriminate.
  - right; left; reflexivity.
  - repeat constructor; eexists; reflexivity.
  - lia.
Defined.
